(** * linkedin_scrapper: a shallow embedding and its checked properties

    The development follows the three source files:
    - [persistent_browser.py]: the browser session manager
      ([PersistentBrowser.start], [save_state], [close]);
    - [models.py]: the [Connection] table;
    - [linkedin_scrapper.py]: [save_single_connection],
      [get_profile_connections], [Scrapper.human_like_behavior] and
      [Scrapper.extract_connection_count].

    Python values are modelled as follows.  A [str] is a [string] whose
    characters are the code points below 256.  An [int] is a [Z].  A
    call that may raise returns a [result]; code that also changes the
    outside world (the database, the browser, the session-state file)
    lives in the monad [M], which keeps the state reached at the moment
    an exception is raised, as Python does. *)

From Stdlib Require Import String Ascii List ZArith Lia Bool Arith.
From Stdlib Require Import DecimalString DecimalNat.
Import ListNotations.
Open Scope string_scope.
Open Scope nat_scope.

(** ** Python: exceptions, results and the built-in string functions *)

Module Py.

(** The exception classes the three files can meet.  All of them derive
    from [Exception]. *)
Inductive exn : Type :=
| ValueError
| IndexError
| TypeError
| AttributeError
| SQLAlchemyError
| PlaywrightError.

Inductive result (A : Type) : Type :=
| Ok (a : A)
| Raise (e : exn).
Arguments Ok {A} a.
Arguments Raise {A} e.

Definition rbind {A B} (r : result A) (k : A -> result B) : result B :=
  match r with
  | Ok a => k a
  | Raise e => Raise e
  end.

(** [try: body  except (classes): handler]; [catches e] tells whether the
    [except] clause lists a class of [e]. *)
Definition try_except {A} (body : result A) (catches : exn -> bool)
    (handler : exn -> result A) : result A :=
  match body with
  | Ok a => Ok a
  | Raise e => if catches e then handler e else Raise e
  end.

(** [str.isspace] on one character (code points below 256). *)
Definition isspace (c : ascii) : bool :=
  let n := nat_of_ascii c in
  ((9 <=? n) && (n <=? 13)) || ((28 <=? n) && (n <=? 32))
  || (n =? 133) || (n =? 160).

Fixpoint lstrip (s : string) : string :=
  match s with
  | EmptyString => EmptyString
  | String c s' => if isspace c then lstrip s' else s
  end.

Fixpoint rstrip (s : string) : string :=
  match s with
  | EmptyString => EmptyString
  | String c s' =>
      match rstrip s' with
      | EmptyString => if isspace c then EmptyString else String c EmptyString
      | t => String c t
      end
  end.

(** [s.strip()] *)
Definition strip (s : string) : string := rstrip (lstrip s).

(** [s.replace(old, new)] for a non-empty [old]: leftmost occurrences,
    not overlapping.  [skip] counts the characters of a matched [old]
    still to be dropped. *)
Fixpoint replace_from (old new : string) (skip : nat) (s : string) : string :=
  match s with
  | EmptyString => EmptyString
  | String c s' =>
      match skip with
      | S k => replace_from old new k s'
      | O =>
          if prefix old s
          then new ++ replace_from old new (String.length old - 1) s'
          else String c (replace_from old new 0 s')
      end
  end.

(** With an empty [old], Python puts [new] before every character and
    at the end. *)
Fixpoint replace_empty (new s : string) : string :=
  match s with
  | EmptyString => new
  | String c s' => new ++ String c (replace_empty new s')
  end.

Definition replace (old new s : string) : string :=
  match old with
  | EmptyString => replace_empty new s
  | _ => replace_from old new 0 s
  end.

(** [s.split(sep)] for a non-empty [sep]; [cur] is the piece being
    read. *)
Fixpoint split_from (sep : string) (skip : nat) (cur : string) (s : string)
    : list string :=
  match s with
  | EmptyString => [cur]
  | String c s' =>
      match skip with
      | S k => split_from sep k cur s'
      | O =>
          if prefix sep s
          then cur :: split_from sep (String.length sep - 1) EmptyString s'
          else split_from sep 0 (cur ++ String c EmptyString) s'
      end
  end.

(** [s.split(sep)]: an empty separator is a [ValueError]. *)
Definition split (sep s : string) : result (list string) :=
  match sep with
  | EmptyString => Raise ValueError
  | _ => Ok (split_from sep 0 EmptyString s)
  end.

(** [l[i]] for a non-negative index. *)
Definition getitem {A} (l : list A) (i : nat) : result A :=
  match nth_error l i with
  | Some a => Ok a
  | None => Raise IndexError
  end.

(** *** [int(s)] in base 10 *)

Definition isdigit (c : ascii) : bool :=
  let n := nat_of_ascii c in (48 <=? n) && (n <=? 57).

Definition digit_value (c : ascii) : Z := (Z.of_nat (nat_of_ascii c) - 48)%Z.

(** The blanks [int] skips around the literal: the C-locale blanks for
    ASCII characters, and the non-ASCII spaces (NEL, NBSP), which the
    interpreter first maps to a space. *)
Definition int_blank (c : ascii) : bool :=
  let n := nat_of_ascii c in
  ((9 <=? n) && (n <=? 13)) || (n =? 32) || (n =? 133) || (n =? 160).

Fixpoint skip_blanks (s : string) : string :=
  match s with
  | EmptyString => EmptyString
  | String c s' => if int_blank c then skip_blanks s' else s
  end.

Inductive scanned : Type := AtStart | AfterDigit | AfterUnderscore.

(** The digits of the literal, single underscores allowed between two
    digits.  Returns the value, the number of digits read and what
    follows the literal; [None] is an invalid literal. *)
Fixpoint scan_digits (prev : scanned) (acc : Z) (count : nat) (s : string)
    : option (Z * nat * string) :=
  let stop :=
    match prev with
    | AfterDigit => Some (acc, count, s)
    | _ => None
    end in
  match s with
  | EmptyString => stop
  | String c s' =>
      if isdigit c
      then scan_digits AfterDigit (10 * acc + digit_value c)%Z (S count) s'
      else if Ascii.eqb c "_"%char
      then match prev with
           | AfterDigit => scan_digits AfterUnderscore acc count s'
           | _ => None
           end
      else stop
  end.

Section Int.

(** [sys.get_int_max_str_digits()]: 0 means no limit (interpreters
    before 3.11 have none), the default of later ones is 4300. *)
Variable int_max_str_digits : nat.

(** The limit is only looked at for literals of more than 640 digits. *)
Definition too_many_digits (count : nat) : bool :=
  (640 <? count) && (0 <? int_max_str_digits) && (int_max_str_digits <? count).

Definition int_unsigned (s : string) : result Z :=
  match scan_digits AtStart 0%Z 0 s with
  | None => Raise ValueError
  | Some (v, count, rest) =>
      if too_many_digits count then Raise ValueError
      else match skip_blanks rest with
           | EmptyString => Ok v
           | _ => Raise ValueError
           end
  end.

(** [int(s)] for a [str] argument. *)
Definition int (s : string) : result Z :=
  match skip_blanks s with
  | String "+" s' => int_unsigned s'
  | String "-" s' => rbind (int_unsigned s') (fun v => Ok (- v)%Z)
  | s' => int_unsigned s'
  end.

End Int.

End Py.

(** ** linkedin_scrapper.py: [Scrapper.extract_connection_count] *)

Module Count.
Import Py.

Section ExtractConnectionCount.

Variable int_max_str_digits : nat.

(** Lines 508-515.
<<
    try:
        clean_number = text.split(" ")[0].replace(",", "")
        return int(clean_number)
    except (ValueError, IndexError):
        return 0
>> *)
Definition clean_number (text : string) : result string :=
  rbind (split " " text) (fun parts =>
  rbind (getitem parts 0) (fun first =>
  Ok (replace "," "" first))).

Definition extract_connection_count (text : string) : result Z :=
  try_except
    (rbind (clean_number text) (fun clean => int int_max_str_digits clean))
    (fun e => match e with ValueError | IndexError => true | _ => false end)
    (fun _ => Ok 0%Z).

End ExtractConnectionCount.

End Count.

(** ** Effects: state that survives an exception *)

Module Eff.
Import Py.

(** A computation over a world [W]: the world reached is returned also
    when an exception is raised. *)
Definition M (W A : Type) : Type := W -> result A * W.

Definition ret {W A} (a : A) : M W A := fun w => (Ok a, w).

Definition bind {W A B} (c : M W A) (k : A -> M W B) : M W B :=
  fun w =>
    match c w with
    | (Ok a, w1) => k a w1
    | (Raise e, w1) => (Raise e, w1)
    end.

Definition raise {W A} (e : exn) : M W A := fun w => (Raise e, w).

Definition lift {W A} (r : result A) : M W A := fun w => (r, w).

Definition gets {W A} (f : W -> A) : M W A := fun w => (Ok (f w), w).

Definition modify {W} (f : W -> W) : M W unit := fun w => (Ok tt, f w).

(** [try: body  except Exception as e: handler e] *)
Definition try_except_all {W A} (body : M W A) (handler : exn -> M W A)
    : M W A :=
  fun w =>
    match body w with
    | (Ok a, w1) => (Ok a, w1)
    | (Raise e, w1) => handler e w1
    end.

(** [try: body  finally: final].  The [finally] block runs on every way
    out of [body]; an exception raised by [final] replaces the outcome
    of [body]. *)
Definition try_finally {W A} (body : M W A) (final : M W unit) : M W A :=
  fun w =>
    match body w with
    | (r, w1) =>
        match final w1 with
        | (Ok _, w2) => (r, w2)
        | (Raise e, w2) => (Raise e, w2)
        end
    end.

(** [if cond: body] *)
Definition when {W} (cond : bool) (body : M W unit) : M W unit :=
  if cond then body else ret tt.

Declare Scope eff_scope.
Delimit Scope eff_scope with eff.
Notation "x <- c ;; k" := (bind c (fun x => k))
  (at level 61, c at next level, right associativity) : eff_scope.
Notation "c ;; k" := (bind c (fun _ => k))
  (at level 61, right associativity) : eff_scope.

End Eff.

(** ** models.py: the [connections] table *)

Module models.
Import Py.

(** A row of [connections] (lines 9-18).  Timestamps are values of the
    database clock.  [occupation] and [profile_url] are nullable. *)
Record Connection : Type := {
  id : Z;
  name : string;
  occupation : option string;
  profile_url : option string;
  first_seen : Z;
  last_updated : Z
}.

(** The attributes the class [Connection] declares. *)
Definition Connection_attributes : list string :=
  ["id"; "name"; "occupation"; "profile_url"; "first_seen"; "last_updated"].

(** An object built by the constructor and not yet inserted: the keyword
    arguments it was given. *)
Definition transient : Type := list (string * string).

(** The constructor of a declarative class takes keyword arguments only
    and rejects, with a [TypeError], a keyword that is not an attribute
    of the class. *)
Definition Connection_new (kwargs : list (string * string)) : result transient :=
  if forallb (fun kw => existsb (String.eqb (fst kw)) Connection_attributes) kwargs
  then Ok kwargs
  else Raise TypeError.

Definition kwarg (key : string) (obj : transient) : option string :=
  option_map snd (find (fun kw => String.eqb (fst kw) key) obj).

(** What a session has not flushed yet: attributes assigned on a loaded
    row, and objects added. *)
Inductive pending : Type :=
| Assigned (row_id : Z) (new_name new_occupation : string)
| Added (obj : transient).

Definition url_is (url : string) (row : Connection) : bool :=
  match profile_url row with
  | Some u => String.eqb u url
  | None => false
  end.

(** [session.query(Connection).filter_by(profile_url=url).first()] *)
Definition first_by_profile_url (url : string) (table : list Connection)
    : option Connection :=
  find (url_is url) table.

Definition same_text (a : option string) (b : string) : bool :=
  match a with
  | Some x => String.eqb x b
  | None => false
  end.

(** The UPDATE the flush emits for a row whose attributes were assigned:
    none when no value differs from the loaded one; otherwise the new
    values are written and [onupdate=func.now()] sets [last_updated].
    [id] and [first_seen] are no part of the statement. *)
Definition update_row (now : Z) (row_id : Z) (new_name new_occupation : string)
    (row : Connection) : Connection :=
  if negb (Z.eqb (id row) row_id) then row
  else if String.eqb (name row) new_name
          && same_text (occupation row) new_occupation then row
  else {| id := id row;
          name := new_name;
          occupation := Some new_occupation;
          profile_url := profile_url row;
          first_seen := first_seen row;
          last_updated := now |}.

(** The next primary key: one more than the largest in the table. *)
Definition next_id (table : list Connection) : Z :=
  (fold_right (fun row m => Z.max (id row) m) 0 table + 1)%Z.

(** The INSERT of an added object: [name] is NOT NULL, [profile_url] is
    UNIQUE, [first_seen] and [last_updated] default to [func.now()]. *)
Definition insert_row (now : Z) (obj : transient) (table : list Connection)
    : result (list Connection) :=
  match kwarg "name" obj with
  | None => Raise SQLAlchemyError
  | Some n =>
      let clash :=
        match kwarg "profile_url" obj with
        | Some u => existsb (url_is u) table
        | None => false
        end in
      if clash then Raise SQLAlchemyError
      else Ok (table ++ [{| id := next_id table;
                            name := n;
                            occupation := kwarg "occupation" obj;
                            profile_url := kwarg "profile_url" obj;
                            first_seen := now;
                            last_updated := now |}])%list
  end.

Fixpoint flush (now : Z) (changes : list pending) (table : list Connection)
    : result (list Connection) :=
  match changes with
  | [] => Ok table
  | Assigned row_id n o :: rest =>
      flush now rest (map (update_row now row_id n o) table)
  | Added obj :: rest =>
      rbind (insert_row now obj table) (flush now rest)
  end.

End models.

(** ** linkedin_scrapper.py: persistence and extraction *)

Module scrapper.
Import Py Eff.
Local Open Scope eff_scope.

(** The dict built at lines 180-184, the only producer of the
    [connection_data] argument: always the same three keys. *)
Record connection_data : Type := {
  name : string;
  occupation : string;
  profile_url : string
}.

Definition connection_data_eq_dec (a b : connection_data) : {a = b} + {a <> b}.
Proof.
  decide equality; apply string_dec.
Defined.

(** What the clock and the database answer during one call of
    [save_single_connection]. *)
Record db_env : Type := {
  now : Z;
  query_fails : bool;
  commit_fails : bool
}.

(** The lines [save_single_connection] prints. *)
Inductive message : Type :=
| UpdatedExisting (who : string)
| SavedNew (who : string)
| ErrorSaving (who : string) (e : exn).

(** The database file, the session the running call holds, the output,
    and the record of the calls of [save_single_connection] made so
    far. *)
Record world : Type := {
  table : list models.Connection;
  session : list models.pending;
  stdout : list message;
  calls : list (connection_data * string)
}.

Definition with_table (t : list models.Connection) (w : world) : world :=
  {| table := t; session := session w; stdout := stdout w; calls := calls w |}.

Definition with_session (s : list models.pending) (w : world) : world :=
  {| table := table w; session := s; stdout := stdout w; calls := calls w |}.

Definition print (m : message) : M world unit :=
  modify (fun w =>
    {| table := table w; session := session w;
       stdout := (stdout w ++ [m])%list; calls := calls w |}).

Definition record_call (c : connection_data) (source : string) : M world unit :=
  modify (fun w =>
    {| table := table w; session := session w; stdout := stdout w;
       calls := (calls w ++ [(c, source)])%list |}).

(** [Session()] *)
Definition Session : M world unit := modify (with_session []).

(** [session.query(Connection).filter_by(profile_url=url).first()] *)
Definition session_query_first (env : db_env) (url : string)
    : M world (option models.Connection) :=
  if query_fails env then raise SQLAlchemyError
  else gets (fun w => models.first_by_profile_url url (table w)).

Definition session_assign (row_id : Z) (new_name new_occupation : string)
    : M world unit :=
  modify (fun w =>
    with_session (session w ++ [models.Assigned row_id new_name new_occupation])%list w).

(** [session.add(obj)] *)
Definition session_add (obj : models.transient) : M world unit :=
  modify (fun w => with_session (session w ++ [models.Added obj])%list w).

(** [session.commit()]: flush, then make the result durable.  A failure
    leaves the table as it was. *)
Definition session_commit (env : db_env) : M world unit :=
  fun w =>
    if commit_fails env then (Raise SQLAlchemyError, w)
    else match models.flush (now env) (session w) (table w) with
         | Ok t => (Ok tt, with_session [] (with_table t w))
         | Raise e => (Raise e, w)
         end.

(** [session.rollback()] *)
Definition session_rollback : M world unit := modify (with_session []).

(** [session.close()] *)
Definition session_close : M world unit := modify (with_session []).

(** Lines 40-76. *)
Definition save_single_connection (env : db_env)
    (connection_data : connection_data) (source_profile : string)
    : M world bool :=
  record_call connection_data source_profile ;;
  Session ;;
  try_finally
    (try_except_all
       (existing <- session_query_first env (profile_url connection_data) ;;
        match existing with
        | Some row =>
            (* [existing.source_profile] is a plain attribute of the
               object, no column: the table never sees it. *)
            session_assign (models.id row)
              (name connection_data) (occupation connection_data) ;;
            print (UpdatedExisting (name connection_data))
        | None =>
            new_connection <-
              lift (models.Connection_new
                      [("name", name connection_data);
                       ("occupation", occupation connection_data);
                       ("profile_url", profile_url connection_data);
                       ("source_profile", source_profile)]) ;;
            session_add new_connection ;;
            print (SavedNew (name connection_data))
        end ;;
        session_commit env ;;
        ret true)
       (fun e =>
          print (ErrorSaving (name connection_data) e) ;;
          session_rollback ;;
          ret false))
    session_close.

(** *** [get_profile_connections], lines 139-223 *)

(** What the queries on one result container answer (lines 167-175):
    the inner text of the title and of the subtitle when there is such a
    node, the [href] of the link when there is one (the attribute itself
    may be absent), and the exception when one of the queries raises. *)
Record element : Type := {
  query_fault : option exn;
  title_text : option string;
  primary_subtitle : option string;
  app_aware_link : option (option string)
}.

(** Lines 167-184: the dict of one element. *)
Definition extract_fields (el : element) : result connection_data :=
  match query_fault el with
  | Some e => Raise e
  | None =>
      let name_text :=
        match title_text el with Some t => t | None => "N/A" end in
      let name_text := strip (replace "View profile for " "" name_text) in
      let occupation_text :=
        match primary_subtitle el with Some t => t | None => "N/A" end in
      rbind
        match app_aware_link el with
        | None => Ok "N/A"
        | Some None => Raise AttributeError
        | Some (Some href) =>
            if String.eqb href "N/A" then Ok href
            else rbind (split "?" href) (fun parts => getitem parts 0)
        end
        (fun url =>
           Ok {| name := strip name_text;
                 occupation := strip occupation_text;
                 profile_url := url |})
  end.

(** The variables of one run, the world, and the dicts the run has
    built so far. *)
Record run : Type := {
  connections : list connection_data;
  total_saved : Z;
  failed_saves : Z;
  current_page : Z;
  extracted : list connection_data;
  outside : world
}.

Definition on_world {A} (c : M world A) : M run A :=
  fun r =>
    match c (outside r) with
    | (res, w) =>
        (res, {| connections := connections r; total_saved := total_saved r;
                 failed_saves := failed_saves r; current_page := current_page r;
                 extracted := extracted r; outside := w |})
    end.

Definition note_extracted (c : connection_data) : M run unit :=
  modify (fun r =>
    {| connections := connections r; total_saved := total_saved r;
       failed_saves := failed_saves r; current_page := current_page r;
       extracted := (extracted r ++ [c])%list; outside := outside r |}).

Definition append_connection (c : connection_data) : M run unit :=
  modify (fun r =>
    {| connections := (connections r ++ [c])%list; total_saved := total_saved r;
       failed_saves := failed_saves r; current_page := current_page r;
       extracted := extracted r; outside := outside r |}).

Definition count_saved : M run unit :=
  modify (fun r =>
    {| connections := connections r; total_saved := (total_saved r + 1)%Z;
       failed_saves := failed_saves r; current_page := current_page r;
       extracted := extracted r; outside := outside r |}).

Definition count_failed : M run unit :=
  modify (fun r =>
    {| connections := connections r; total_saved := total_saved r;
       failed_saves := (failed_saves r + 1)%Z; current_page := current_page r;
       extracted := extracted r; outside := outside r |}).

Definition next_page : M run unit :=
  modify (fun r =>
    {| connections := connections r; total_saved := total_saved r;
       failed_saves := failed_saves r; current_page := (current_page r + 1)%Z;
       extracted := extracted r; outside := outside r |}).

Section Run.

(** The clock and the database at the n-th call of
    [save_single_connection]. *)
Variable envs : nat -> db_env.

(** Lines 165-196, the body of [for element in connection_elements]. *)
Definition process_element (el : element) : M run unit :=
  try_except_all
    (connection <- lift (extract_fields el) ;;
     note_extracted connection ;;
     seen <- gets connections ;;
     if negb (if in_dec connection_data_eq_dec connection seen then true else false)
        && negb (String.eqb (name connection) "N/A")
     then
       append_connection connection ;;
       n <- gets (fun r => List.length (calls (outside r))) ;;
       saved <- on_world
                  (save_single_connection (envs n) connection
                     (profile_url connection)) ;;
       if saved then count_saved else count_failed
     else ret tt)
    (fun _ => ret tt).

Fixpoint process_elements (els : list element) : M run unit :=
  match els with
  | [] => ret tt
  | el :: rest => process_element el ;; process_elements rest
  end.

(** The "Next" button: its [disabled] attribute and what clicking it
    does. *)
Record button : Type := {
  disabled : result (option string);
  click : result unit
}.

(** What the page shows during one turn of the [while] loop. *)
Record page_view : Type := {
  load_fault : option exn;
  connection_elements : list element;
  next_button : result (option button)
}.

Definition truthy (s : option string) : bool :=
  match s with
  | None => false
  | Some EmptyString => false
  | Some _ => true
  end.

(** Lines 148-217, one turn; the answer tells whether the loop goes on
    ([false] stands for [break]). *)
Definition turn (view : page_view) : M run bool :=
  try_except_all
    (match load_fault view with
     | Some e => raise e
     | None =>
         match connection_elements view with
         | [] => ret false
         | els =>
             process_elements els ;;
             found <- lift (next_button view) ;;
             match found with
             | None => ret false
             | Some b =>
                 is_disabled <- lift (disabled b) ;;
                 if truthy is_disabled then ret false
                 else lift (click b) ;; next_page ;; ret true
             end
         end
     end)
    (fun _ => ret false).

(** [while total_saved < connections_count], over the views the page
    offers, one for each turn; with no view left the model stops where
    the loop stands.  The progress lines the loop prints are left out. *)
Fixpoint turns (connections_count : Z) (views : list page_view) : M run unit :=
  match views with
  | [] => ret tt
  | view :: later =>
      total <- gets total_saved ;;
      if (total <? connections_count)%Z
      then go_on <- turn view ;;
           if go_on then turns connections_count later else ret tt
      else ret tt
  end.

(** [get_profile_connections].  Lines 80-137 only decide between an
    early [return []] ([navigation = None]) and the count read from the
    profile page; they save nothing. *)
Definition get_profile_connections (navigation : option Z)
    (views : list page_view) (w : world) : result (list connection_data) * run :=
  let start :=
    {| connections := []; total_saved := 0; failed_saves := 0;
       current_page := 1; extracted := []; outside := w |} in
  match navigation with
  | None => (Ok [], start)
  | Some connections_count =>
      (turns connections_count views ;; gets connections) start
  end.

End Run.

End scrapper.

(** ** persistent_browser.py *)

Module persistent_browser.
Import Py Eff.
Local Open Scope eff_scope.

(** The storage state of a browsing context (cookies and local storage);
    opaque to the program. *)
Definition storage_state : Type := list (string * string).

(** The session-state file as the browser library finds it. *)
Inductive file : Type :=
| Missing
| Corrupt
| Stored (state : storage_state).

(** The handles the library hands out. *)
Inductive Browser : Type := chromium.
Record BrowserContext : Type := { cookies : storage_state }.
Inductive Page : Type := tab.

(** The calls into the browser library. *)
Inductive call : Type :=
| StartPlaywright
| Launch
| NewContext (storage : option string)
| NewPage
| StorageState (path : string)
| PageClose
| ContextClose
| BrowserClose.

(** The outside of the manager: the files, the calls attempted so far
    (oldest first) and the calls the library fails. *)
Record world : Type := {
  files : string -> file;
  attempted : list call;
  fails : call -> bool
}.

(** Lines 6-16. *)
Record PersistentBrowser : Type := {
  storage_state_path : string;
  browser : option Browser;
  context : option BrowserContext;
  page : option Page
}.

Definition __init__ (storage_state_path : string) : PersistentBrowser :=
  {| storage_state_path := storage_state_path;
     browser := None; context := None; page := None |}.

(** The object and its outside. *)
Record state : Type := { self : PersistentBrowser; env : world }.

Definition set_self (f : PersistentBrowser -> PersistentBrowser) : M state unit :=
  modify (fun s => {| self := f (self s); env := env s |}).

(** A call into the library: attempted, and failed when the library
    says so. *)
Definition library (c : call) : M state unit :=
  fun s =>
    let s' := {| self := self s;
                 env := {| files := files (env s);
                           attempted := (attempted (env s) ++ [c])%list;
                           fails := fails (env s) |} |} in
    if fails (env s) c then (Raise PlaywrightError, s') else (Ok tt, s').

(** [os.path.exists(path)] *)
Definition path_exists (path : string) : M state bool :=
  gets (fun s => match files (env s) path with Missing => false | _ => true end).

(** [browser.new_context] with the [context_params]: with a [storage_state] path
    the library reads and parses the file, and raises when it cannot. *)
Definition new_context (storage : option string) : M state BrowserContext :=
  library (NewContext storage) ;;
  match storage with
  | None => ret {| cookies := [] |}
  | Some path =>
      f <- gets (fun s => files (env s) path) ;;
      match f with
      | Stored st => ret {| cookies := st |}
      | Corrupt => raise PlaywrightError
      | Missing => raise PlaywrightError
      end
  end.

Definition write_file (path : string) (content : file) : M state unit :=
  modify (fun s =>
    {| self := self s;
       env := {| files := fun p => if String.eqb p path then content
                                   else files (env s) p;
                 attempted := attempted (env s);
                 fails := fails (env s) |} |}).

Definition truthy {A} (handle : option A) : bool :=
  match handle with Some _ => true | None => false end.

(** Lines 18-38. *)
Definition start : M state Page :=
  library StartPlaywright ;;
  library Launch ;;
  set_self (fun o =>
    {| storage_state_path := storage_state_path o; browser := Some chromium;
       context := context o; page := page o |}) ;;
  path <- gets (fun s => storage_state_path (self s)) ;;
  found <- path_exists path ;;
  let context_params := if found then Some path else None in
  ctx <- new_context context_params ;;
  set_self (fun o =>
    {| storage_state_path := storage_state_path o; browser := browser o;
       context := Some ctx; page := page o |}) ;;
  library NewPage ;;
  set_self (fun o =>
    {| storage_state_path := storage_state_path o; browser := browser o;
       context := context o; page := Some tab |}) ;;
  ret tab.

(** Lines 40-43. *)
Definition save_state : M state unit :=
  ctx <- gets (fun s => context (self s)) ;;
  match ctx with
  | Some c =>
      path <- gets (fun s => storage_state_path (self s)) ;;
      library (StorageState path) ;;
      write_file path (Stored (cookies c))
  | None => ret tt
  end.

(** Lines 45-55. *)
Definition close : M state unit :=
  try_finally
    save_state
    (p <- gets (fun s => page (self s)) ;;
     when (truthy p) (library PageClose) ;;
     c <- gets (fun s => context (self s)) ;;
     when (truthy c) (library ContextClose) ;;
     b <- gets (fun s => browser (self s)) ;;
     when (truthy b) (library BrowserClose)).

End persistent_browser.

(** ** linkedin_scrapper.py: [Scrapper.human_like_behavior] *)

Module scroll.

(** The variables of the loop (lines 418-421), and for every cycle run
    so far whether it called [save_state] (oldest first). *)
Record loop : Type := {
  last_height : Z;
  all_loaded : bool;
  scroll_attempts : Z;
  saves : list bool
}.

Definition max_scroll_attempts : Z := 20.

(** Line 424: [not all_loaded and scroll_attempts < max_scroll_attempts]. *)
Definition scrolling (l : loop) : bool :=
  negb (all_loaded l) && (scroll_attempts l <? max_scroll_attempts)%Z.

(** Lines 425-443, one cycle; [new_height] is what the page answers at
    line 432. *)
Definition cycle (new_height : Z) (l : loop) : loop :=
  let l1 :=
    if (new_height =? last_height l)%Z
    then
      let attempts := (scroll_attempts l + 1)%Z in
      {| last_height := last_height l;
         all_loaded := if (attempts >=? 3)%Z then true else all_loaded l;
         scroll_attempts := attempts;
         saves := saves l |}
    else
      {| last_height := new_height;
         all_loaded := all_loaded l;
         scroll_attempts := 0;
         saves := saves l |} in
  {| last_height := last_height l1;
     all_loaded := all_loaded l1;
     scroll_attempts := scroll_attempts l1;
     saves := (saves l1 ++ [(scroll_attempts l1 mod 5 =? 0)%Z])%list |}.

(** Where the loop stands once the heights measured so far are used up:
    it has left the [while] ([Loaded]) or is about to scroll again. *)
Inductive outcome : Type :=
| Loaded (l : loop)
| Scrolling (l : loop).

Fixpoint cycles (heights : list Z) (l : loop) : outcome :=
  if scrolling l then
    match heights with
    | [] => Scrolling l
    | h :: later => cycles later (cycle h l)
    end
  else Loaded l.

(** Lines 415-443: [first_height] is the height read at line 418,
    [heights] the ones read at line 432, cycle after cycle.  The
    scrolling and the pauses of lines 426-429 change none of the
    variables; the calls into the browser are taken to return. *)
Definition human_like_behavior (first_height : Z) (heights : list Z) : outcome :=
  cycles heights
    {| last_height := first_height; all_loaded := false;
       scroll_attempts := 0; saves := [] |}.

Definition final (o : outcome) : loop :=
  match o with Loaded l => l | Scrolling l => l end.

(** The number of cycles run. *)
Definition cycles_run (o : outcome) : nat := List.length (saves (final o)).

End scroll.

(** ** linkedin_scrapper.py: the session cookie and the profile URL *)

Module cli.
Import Py Eff.
Local Open Scope eff_scope.

(** A cookie as [add_cookies] takes it (lines 29-34). *)
Record cookie : Type := {
  name : string;
  value : string;
  domain : string;
  path : string
}.

(** The environment variables, the cookies of the browsing context, the
    exception [add_cookies] raises if it does, and the errors printed. *)
Record process : Type := {
  environ : string -> option string;
  jar : list cookie;
  jar_fault : option exn;
  reported : list exn
}.

(** [context.add_cookies(cookies)] *)
Definition add_cookies (cookies : list cookie) : M process unit :=
  fun p =>
    match jar_fault p with
    | Some e => (Raise e, p)
    | None =>
        (Ok tt, {| environ := environ p; jar := (jar p ++ cookies)%list;
                   jar_fault := jar_fault p; reported := reported p |})
    end.

Definition report (e : exn) : M process unit :=
  modify (fun p =>
    {| environ := environ p; jar := jar p; jar_fault := jar_fault p;
       reported := (reported p ++ [e])%list |}).

(** Lines 21-38. *)
Definition set_cookie_session : M process bool :=
  try_except_all
    (cookie_session <- gets (fun p => environ p "LINKEDIN_COOKIE_SESSION") ;;
     match cookie_session with
     | Some (String c rest) =>
         add_cookies [{| name := "li_at"; value := String c rest;
                         domain := ".linkedin.com"; path := "/" |}] ;;
         ret true
     | _ => raise ValueError
     end)
    (fun e => report e ;; ret false).


End cli.

(** ** linkedin_scrapper.py: [get_total_pages] *)

Module pagination.
Import Py.

(** [l[-1]] *)
Definition getitem_last {A} (l : list A) : result A :=
  match rev l with
  | a :: _ => Ok a
  | [] => Raise IndexError
  end.

Section GetTotalPages.

Variable int_max_str_digits : nat.

(** Lines 323-332.  [pagination_text] is what the query of line 326
    answers: an exception, no element, or an element with what its
    [inner_text()] gives. *)
Definition get_total_pages (pagination_text : result (option (result string)))
    : result Z :=
  let tried : result (option Z) :=
    try_except
      (rbind pagination_text (fun found =>
         match found with
         | Some inner_text =>
             rbind inner_text (fun text =>
             rbind (split "of" text) (fun parts =>
             rbind (getitem_last parts) (fun piece =>
             rbind (int int_max_str_digits (strip piece)) (fun n =>
             Ok (Some n)))))
         | None => Ok None
         end))
      (fun _ => true)
      (fun _ => Ok None) in
  rbind tried (fun returned =>
    match returned with
    | Some n => Ok n
    | None => Ok 1%Z
    end).

End GetTotalPages.

End pagination.

(** ** linkedin_scrapper.py: the class [Scrapper] *)

Module Scrapper.
Import Py.

(** Where [_human_scroll] stands once the random chunks drawn so far
    are used up: it has left the [while], or is about to draw again.
    [scrolled] lists the positions passed to [window.scrollTo], oldest
    first. *)
Inductive scroll_outcome : Type :=
| Arrived (scrolled : list Z)
| Moving (scrolled : list Z) (current_position : Z).

(** Lines 399-409; [chunks] are the values of [random.randint(20, 60)]
    at line 402, turn after turn. *)
Fixpoint scroll_loop (chunks : list Z) (current_position target_position : Z)
    (scrolled : list Z) : scroll_outcome :=
  if (current_position <? target_position)%Z then
    match chunks with
    | [] => Moving scrolled current_position
    | scroll_chunk :: later =>
        let current_position :=
          Z.min (current_position + scroll_chunk) target_position in
        scroll_loop later current_position target_position
          (scrolled ++ [current_position])%list
    end
  else Arrived scrolled.

(** Lines 394-412. *)
Definition _human_scroll (chunks : list Z) (scroll_distance : Z) : scroll_outcome :=
  scroll_loop chunks 0 scroll_distance [].

(** An entry of the connections list (lines 536-537): the profile link
    with its [href] and inner text when the query finds one, and the
    inner text of the title paragraph when there is one. *)
Record list_entry : Type := {
  profile_elem : option (option string * string);
  title_elem : option string
}.

(** Lines 534-543, the body of the [for] loop: the name printed, or the
    [AttributeError] of a method called on [None]. *)
Definition entry_name (entry : list_entry) : result string :=
  match profile_elem entry with
  | None => Raise AttributeError
  | Some (profile_url, inner_text) =>
      let name := strip inner_text in
      match title_elem entry with
      | None => Raise AttributeError
      | Some title_text => Ok name
      end
  end.

Fixpoint print_names (entries : list list_entry) (printed : list string)
    : result unit * list string :=
  match entries with
  | [] => (Ok tt, printed)
  | entry :: later =>
      match entry_name entry with
      | Ok name => print_names later (printed ++ [name])%list
      | Raise e => (Raise e, printed)
      end
  end.

Section GetConnections.

Variable int_max_str_digits : nat.

(** Lines 529-547 of [get_connections], once the connections page is
    shown: [header_element] is the inner text of the header when the
    query finds it, [connections_elements] the entries of the list.
    Returns the value returned and the names printed. *)
Definition get_connections (header_element : option string)
    (connections_elements : list list_entry) : result Z * list string :=
  let connections_count_text :=
    match header_element with
    | Some inner_text => inner_text
    | None => "0 Connections"
    end in
  match print_names connections_elements [] with
  | (Ok _, printed) =>
      (Count.extract_connection_count int_max_str_digits connections_count_text,
       printed)
  | (Raise e, printed) => (Raise e, printed)
  end.

End GetConnections.

End Scrapper.

(** ** Vocabulary of the statements *)

Module Props.
Import Py.

(** The releases [close] has to make for an object, in the order of
    lines 50-55: only the handles that are set. *)
Definition releases (o : persistent_browser.PersistentBrowser)
    : list persistent_browser.call :=
  ((if persistent_browser.truthy (persistent_browser.page o)
    then [persistent_browser.PageClose] else [])
   ++ (if persistent_browser.truthy (persistent_browser.context o)
       then [persistent_browser.ContextClose] else [])
   ++ (if persistent_browser.truthy (persistent_browser.browser o)
       then [persistent_browser.BrowserClose] else []))%list.

(** The calls of a sequence that are reached when the first failure
    stops the sequence: all up to and including the first one that
    fails. *)
Fixpoint through_failure (fails : persistent_browser.call -> bool)
    (cs : list persistent_browser.call) : list persistent_browser.call :=
  match cs with
  | [] => []
  | c :: rest => c :: (if fails c then [] else through_failure fails rest)
  end.

(** The call [save_state] makes for an object. *)
Definition save_attempt (o : persistent_browser.PersistentBrowser)
    : list persistent_browser.call :=
  match persistent_browser.context o with
  | Some _ => [persistent_browser.StorageState (persistent_browser.storage_state_path o)]
  | None => []
  end.

(** An object as [start] leaves it, with the default path. *)
Definition started : persistent_browser.PersistentBrowser :=
  {| persistent_browser.storage_state_path := "browser_state.json";
     persistent_browser.browser := Some persistent_browser.chromium;
     persistent_browser.context := Some {| persistent_browser.cookies := [] |};
     persistent_browser.page := Some persistent_browser.tab |}.

(** A world with one file status for every path, nothing attempted
    yet, and the given failing calls. *)
Definition world_with (f : persistent_browser.file)
    (fails : persistent_browser.call -> bool) : persistent_browser.world :=
  {| persistent_browser.files := fun _ => f;
     persistent_browser.attempted := [];
     persistent_browser.fails := fails |}.

Definition page_close_fails (c : persistent_browser.call) : bool :=
  match c with persistent_browser.PageClose => true | _ => false end.

Definition nothing_fails (c : persistent_browser.call) : bool := false.

(** A library on which no call fails. *)
Definition reliable (w : persistent_browser.world) : Prop :=
  forall c, persistent_browser.fails w c = false.

(** The records handed to [save_single_connection] between two worlds
    of one process. *)
Definition handed_over (before after : scrapper.world)
    : list scrapper.connection_data :=
  map fst (skipn (List.length (scrapper.calls before)) (scrapper.calls after)).

(** The heights [first, first + 1, ..., first + n - 1]. *)
Definition rising (first : Z) (n : nat) : list Z :=
  map (fun i => (first + Z.of_nat i)%Z) (seq 0 n).

(** Every height differs from the one measured before it. *)
Fixpoint always_changing (previous : Z) (heights : list Z) : Prop :=
  match heights with
  | [] => True
  | h :: later => h <> previous /\ always_changing h later
  end.

(** The loop between two cycles while nothing is decided yet: not
    loaded, and fewer than three cycles in a row without a change. *)
Definition steady (l : scroll.loop) : Prop :=
  scroll.all_loaded l = false /\ (0 <= scroll.scroll_attempts l <= 2)%Z.

(** The loop once stagnation was detected. *)
Definition stagnated (l : scroll.loop) : Prop :=
  scroll.all_loaded l = true /\ scroll.scroll_attempts l = 3%Z.

(** A database that answers, at time [t]. *)
Definition calm (t : Z) : scrapper.db_env :=
  {| scrapper.now := t; scrapper.query_fails := false;
     scrapper.commit_fails := false |}.

(** A process at its start, with the given table. *)
Definition world_of (t : list models.Connection) : scrapper.world :=
  {| scrapper.table := t; scrapper.session := [];
     scrapper.stdout := []; scrapper.calls := [] |}.

Definition ann (occupation : string) : scrapper.connection_data :=
  {| scrapper.name := "Ann";
     scrapper.occupation := occupation;
     scrapper.profile_url := "https://www.linkedin.com/in/ann" |}.

(** The arguments of the call of line 188 for a dict. *)
Definition as_saved (c : scrapper.connection_data)
    : scrapper.connection_data * string :=
  (c, scrapper.profile_url c).

(** What holds between two elements of a run started in world [w]: the
    calls of [save_single_connection] made since are those for the
    dicts of [connections], in that order; [connections] repeats no
    dict; and it holds exactly the dicts built so far whose name is not
    the sentinel. *)
Definition deduplicated (w : scrapper.world) (r : scrapper.run) : Prop :=
  scrapper.calls (scrapper.outside r) =
    (scrapper.calls w ++ map as_saved (scrapper.connections r))%list /\
  NoDup (scrapper.connections r) /\
  (forall c, In c (scrapper.connections r) <->
             In c (scrapper.extracted r) /\ scrapper.name c <> "N/A").

(** A result container for Ann, and one without a title node. *)
Definition ann_element : scrapper.element :=
  {| scrapper.query_fault := None;
     scrapper.title_text := Some "View profile for Ann";
     scrapper.primary_subtitle := Some " Engineer ";
     scrapper.app_aware_link :=
       Some (Some "https://www.linkedin.com/in/ann?miniProfileUrn=1") |}.

Definition untitled_element : scrapper.element :=
  {| scrapper.query_fault := None;
     scrapper.title_text := None;
     scrapper.primary_subtitle := Some "Engineer";
     scrapper.app_aware_link :=
       Some (Some "https://www.linkedin.com/in/ann?miniProfileUrn=1") |}.

(** Two page loads that overlap: both show the same two containers, and
    a "Next" button that can be clicked. *)
Definition overlapping_views : list scrapper.page_view :=
  let view :=
    {| scrapper.load_fault := None;
       scrapper.connection_elements := [ann_element; untitled_element];
       scrapper.next_button :=
         Ok (Some {| scrapper.disabled := Ok None; scrapper.click := Ok tt |}) |} in
  [view; view].

(** A computation that keeps a property of the state, however it ends. *)
Definition preserves {W A : Type} (P : W -> Prop) (c : Eff.M W A) : Prop :=
  forall w, P w -> P (snd (c w)).

(** For every height measured, whether it differs from the one
    measured before it. *)
Fixpoint changes (previous : Z) (heights : list Z) : list bool :=
  match heights with
  | [] => []
  | h :: later => negb (h =? previous)%Z :: changes h later
  end.

(** The last entries of the log are as many cycles without a call as
    the counter says. *)
Definition counter_matches_log (l : scroll.loop) : Prop :=
  exists earlier,
    scroll.saves l =
      (earlier ++ repeat false (Z.to_nat (scroll.scroll_attempts l)))%list.

(** [c in s] for a character. *)
Fixpoint has_char (c : ascii) (s : string) : bool :=
  match s with
  | EmptyString => false
  | String x rest => Ascii.eqb x c || has_char c rest
  end.

(** [str(n)] for a natural number. *)
Definition decimal (n : nat) : string :=
  NilEmpty.string_of_uint (Nat.to_uint n).

(** A computation that always returns. *)
Definition returns {W A : Type} (c : Eff.M W A) : Prop :=
  forall w, exists a, fst (c w) = Py.Ok a.


(** A row for Ann, first seen at time 3. *)
Definition ann_row : models.Connection :=
  {| models.id := 7; models.name := "Ann";
     models.occupation := Some "Engineer";
     models.profile_url := Some "https://www.linkedin.com/in/ann";
     models.first_seen := 3; models.last_updated := 3 |}.

(** Strictly rising positions, all above [previous] and none above
    [target]. *)
Fixpoint climbing (previous target : Z) (positions : list Z) : Prop :=
  match positions with
  | [] => True
  | p :: later => (previous < p <= target)%Z /\ climbing p target later
  end.


(** The cookies a context starts with, by what the file holds. *)
Definition restored (f : persistent_browser.file) : persistent_browser.storage_state :=
  match f with
  | persistent_browser.Stored st => st
  | _ => []
  end.

(** An entry of the connections list with its profile link and its
    title paragraph. *)
Definition complete (entry : Scrapper.list_entry) : bool :=
  match Scrapper.profile_elem entry, Scrapper.title_elem entry with
  | Some _, Some _ => true
  | _, _ => false
  end.

(** The cookie [set_cookie_session] adds for a session value. *)
Definition li_at (session : string) : cli.cookie :=
  {| cli.name := "li_at"; cli.value := session;
     cli.domain := ".linkedin.com"; cli.path := "/" |}.

(** A process with the given value of LINKEDIN_COOKIE_SESSION and no
    cookie yet. *)
Definition process_with (session : option string) (fault : option Py.exn)
    : cli.process :=
  {| cli.environ := fun _ => session; cli.jar := [];
     cli.jar_fault := fault; cli.reported := [] |}.

End Props.

(** * Properties *)

(** ** Python built-ins *)

Import Py.

Lemma split_from_not_nil (sep : string) (s : string) :
  forall skip cur, split_from sep skip cur s <> [].
Proof.
  induction s as [|c s IH]; intros skip cur; cbn [split_from].
  - discriminate.
  - destruct skip as [|k].
    + destruct (prefix sep (String c s)); [discriminate | apply IH].
    + apply IH.
Qed.

Lemma split_blank_first (text : string) :
  exists first rest, split " " text = Ok (first :: rest).
Proof.
  unfold split.
  destruct (split_from " " 0 "" text) as [|first rest] eqn:E.
  - exfalso. exact (split_from_not_nil _ _ _ _ E).
  - exists first, rest. reflexivity.
Qed.

(** [int] raises nothing but [ValueError]. *)
Lemma int_unsigned_raises_ValueError (limit : nat) (s : string) (e : exn) :
  int_unsigned limit s = Raise e -> e = ValueError.
Proof.
  unfold int_unsigned.
  destruct (scan_digits AtStart 0 0 s) as [[[v count] rest]|].
  - destruct (too_many_digits limit count).
    + intros H; inversion H; reflexivity.
    + destruct (skip_blanks rest); intros H; inversion H; reflexivity.
  - intros H; inversion H; reflexivity.
Qed.

Lemma int_raises_ValueError (limit : nat) (s : string) (e : exn) :
  int limit s = Raise e -> e = ValueError.
Proof.
  unfold int.
  assert (signed : forall t,
    rbind (int_unsigned limit t) (fun v => Ok (- v)%Z) = Raise e -> e = ValueError).
  { intros t. destruct (int_unsigned limit t) eqn:E; simpl; intros H.
    - discriminate.
    - inversion H; subst. eapply int_unsigned_raises_ValueError; eassumption. }
  destruct (skip_blanks s) as [|c t] eqn:Es.
  - apply int_unsigned_raises_ValueError.
  - destruct c as [[] [] [] [] [] [] [] []];
      first [ apply signed | apply int_unsigned_raises_ValueError ].
Qed.

(** ** [Scrapper.extract_connection_count] *)

Lemma clean_number_ok (text : string) :
  exists clean, Count.clean_number text = Ok clean.
Proof.
  unfold Count.clean_number.
  destruct (split_blank_first text) as (first & rest & ->).
  simpl. eexists. reflexivity.
Qed.

Lemma extract_connection_count_value (limit : nat) (text clean : string) :
  Count.clean_number text = Ok clean ->
  Count.extract_connection_count limit text =
    Ok match int limit clean with Ok n => n | Raise _ => 0%Z end.
Proof.
  intros Hc. unfold Count.extract_connection_count. rewrite Hc. simpl.
  destruct (int limit clean) as [n|e] eqn:E; simpl.
  - reflexivity.
  - rewrite (int_raises_ValueError _ _ _ E). reflexivity.
Qed.

(** C8.  [extract_connection_count] returns an integer for every text
    and never raises: what it returns is the integer read from the first
    blank-separated word with its commas removed, and 0 when that word
    is no integer literal.  "1,704 Connections" gives 1704; the empty
    text and texts such as "Connections" or "12abc" give 0.  This holds
    whatever the interpreter's limit on the digits of a literal. *)
Theorem extract_connection_count_total (int_max_str_digits : nat) :
  (forall text : string,
     exists clean,
       Count.clean_number text = Ok clean /\
       Count.extract_connection_count int_max_str_digits text =
         Ok match int int_max_str_digits clean with
            | Ok n => n
            | Raise _ => 0%Z
            end) /\
  Count.extract_connection_count int_max_str_digits "1,704 Connections" = Ok 1704%Z /\
  Count.extract_connection_count int_max_str_digits "" = Ok 0%Z /\
  Count.extract_connection_count int_max_str_digits "Connections" = Ok 0%Z /\
  Count.extract_connection_count int_max_str_digits "12abc" = Ok 0%Z.
Proof.
  split.
  - intros text. destruct (clean_number_ok text) as [clean Hc].
    exists clean. split; [exact Hc|].
    apply extract_connection_count_value; exact Hc.
  - repeat split; reflexivity.
Qed.

(** ** [PersistentBrowser] *)

Section Browser.
Import persistent_browser Props.

Ltac run_browser :=
  unfold close, save_state, start, new_context, path_exists, library, write_file,
    set_self, Eff.try_finally, Eff.when, Eff.bind, Eff.gets, Eff.modify,
    Eff.ret, Eff.raise, truthy;
  cbn [self env files attempted fails storage_state_path browser context page
       fst snd cookies].

(** C10.  On a manager that was never started (the three handles are
    [None], as [__init__] leaves them) [save_state] does nothing: it
    calls nothing, writes no file and returns; [close] likewise returns
    without a call into the library, and the manager and its outside are
    as before. *)
Theorem never_started_is_inert (path : string) (w : world) :
  let s := {| self := __init__ path; env := w |} in
  save_state s = (Ok tt, s) /\ close s = (Ok tt, s).
Proof.
  split; reflexivity.
Qed.

Lemma start_missing (o : PersistentBrowser) (w : world) :
  files w (storage_state_path o) = Missing ->
  reliable w ->
  exists s',
    start {| self := o; env := w |} = (Ok tab, s') /\
    context (self s') = Some {| cookies := [] |} /\
    page (self s') = Some tab /\
    attempted (env s') =
      (attempted w ++ [StartPlaywright; Launch; NewContext None; NewPage])%list /\
    files (env s') = files w.
Proof.
  intros Hmiss Hok. run_browser.
  repeat (first [rewrite Hok | rewrite Hmiss]; cbn).
  eexists. split; [reflexivity|]. cbn.
  repeat split. rewrite <- !app_assoc. reflexivity.
Qed.

Lemma start_corrupt (o : PersistentBrowser) (w : world) :
  files w (storage_state_path o) = Corrupt ->
  exists e s',
    start {| self := o; env := w |} = (Raise e, s') /\
    context (self s') = context o /\
    page (self s') = page o /\
    ~ In (NewContext None) (skipn (List.length (attempted w)) (attempted (env s'))) /\
    files (env s') = files w.
Proof.
  intros Hbad. run_browser.
  destruct (fails w StartPlaywright) eqn:F1; cbn.
  { do 2 eexists. split; [reflexivity|]. cbn. repeat split.
    rewrite skipn_app, skipn_all, Nat.sub_diag. cbn. intros [H|[]]; discriminate. }
  destruct (fails w Launch) eqn:F2; cbn.
  { do 2 eexists. split; [reflexivity|]. cbn. repeat split.
    rewrite <- !app_assoc, skipn_app, skipn_all, Nat.sub_diag. cbn.
    intros [H|[H|[]]]; discriminate. }
  rewrite Hbad. cbn.
  destruct (fails w (NewContext (Some (storage_state_path o)))) eqn:F3; cbn;
    rewrite ?Hbad; cbn.
  all: do 2 eexists; (split; [reflexivity|]); cbn; repeat split;
    rewrite <- !app_assoc, skipn_app, skipn_all, Nat.sub_diag; cbn;
    intros [H|[H|[H|[]]]]; discriminate.
Qed.

(** C7.  When the session-state file is missing and the browser library
    itself works, [start] returns the page and the context it made is a
    fresh one, built without storage state.  When the file is there but
    corrupt, [start] ends with an exception, which is not caught; no
    context is stored in the manager and no context without storage
    state is ever asked for, whatever else the library does. *)
Theorem start_missing_or_corrupt (o : PersistentBrowser) (w : world) :
  (files w (storage_state_path o) = Missing ->
   reliable w ->
   exists s',
     start {| self := o; env := w |} = (Ok tab, s') /\
     context (self s') = Some {| cookies := [] |} /\
     attempted (env s') =
       (attempted w ++ [StartPlaywright; Launch; NewContext None; NewPage])%list) /\
  (files w (storage_state_path o) = Corrupt ->
   exists e s',
     start {| self := o; env := w |} = (Raise e, s') /\
     context (self s') = context o /\
     ~ In (NewContext None)
          (skipn (List.length (attempted w)) (attempted (env s')))).
Proof.
  split.
  - intros Hmiss Hok.
    destruct (start_missing o w Hmiss Hok) as (s' & H1 & H2 & _ & H4 & _).
    exists s'. auto.
  - intros Hbad.
    destruct (start_corrupt o w Hbad) as (e & s' & H1 & H2 & _ & H4 & _).
    exists e, s'. auto.
Qed.

(** The witness of C7: the default path, once with no file and a
    library that works, once with a corrupt file. *)
Lemma start_missing_or_corrupt_witness :
  (exists s',
     start {| self := __init__ "browser_state.json";
              env := world_with Missing nothing_fails |} = (Ok tab, s') /\
     context (self s') = Some {| cookies := [] |}) /\
  (exists e s',
     start {| self := __init__ "browser_state.json";
              env := world_with Corrupt nothing_fails |} = (Raise e, s')).
Proof.
  split.
  - destruct (proj1 (start_missing_or_corrupt (__init__ "browser_state.json")
                       (world_with Missing nothing_fails))
                eq_refl (fun c => eq_refl)) as (s' & H1 & H2 & _).
    exists s'. split; assumption.
  - destruct (proj2 (start_missing_or_corrupt (__init__ "browser_state.json")
                       (world_with Corrupt nothing_fails))
                eq_refl) as (e & s' & H1 & _).
    exists e, s'. exact H1.
Defined.

(** C4, as stated, fails: when the page, the context and the browser
    are set and closing the page fails, [close] ends there; neither the
    context nor the browser is closed. *)
Lemma close_stops_at_failed_release :
  let s := {| self := started; env := world_with Missing page_close_fails |} in
  fails (env s) PageClose = true /\
  fst (close s) = Raise PlaywrightError /\
  attempted (env (snd (close s))) = [StorageState "browser_state.json"; PageClose] /\
  ~ In ContextClose (attempted (env (snd (close s)))) /\
  ~ In BrowserClose (attempted (env (snd (close s)))).
Proof.
  cbn. repeat split.
  - intros [H|[H|[]]]; discriminate.
  - intros [H|[H|[]]]; discriminate.
Qed.

(** C4, amended.  [close] first attempts [save_state] (a call of the
    library when a context is set).  Whether that call fails or not,
    [close] then releases the page, the context and the browser, in this
    order and each only when it is set, up to and including the first
    release that fails: after a failed release the later ones are not
    attempted.  [close] returns normally exactly when no attempted call
    failed, and it leaves the fields of the manager as they were. *)
Theorem close_attempts_in_order (s : state) :
  attempted (env (snd (close s))) =
    (attempted (env s) ++ save_attempt (self s)
       ++ through_failure (fails (env s)) (releases (self s)))%list /\
  fst (close s) =
    (if existsb (fails (env s))
          (save_attempt (self s)
             ++ through_failure (fails (env s)) (releases (self s)))
     then Raise PlaywrightError else Ok tt) /\
  self (snd (close s)) = self s /\
  fails (env (snd (close s))) = fails (env s).
Proof.
  destruct s as [[path b c p] [fl att fa]].
  unfold save_attempt, releases.
  destruct b, c, p; run_browser; cbn;
    repeat match goal with
           | |- context [fa ?x] => destruct (fa x) eqn:?; cbn
           end;
    rewrite <- ?app_assoc; cbn; rewrite ?app_nil_r; auto.
Qed.

End Browser.

(** ** [Scrapper.human_like_behavior] *)

Section Scroll.
Import scroll Props.

Lemma steady_scrolling (l : loop) : steady l -> scrolling l = true.
Proof.
  intros [Hl Ha]. unfold scrolling, max_scroll_attempts. rewrite Hl. cbn.
  apply Z.ltb_lt. lia.
Qed.

Lemma stagnated_not_scrolling (l : loop) : stagnated l -> scrolling l = false.
Proof.
  intros [Hl _]. unfold scrolling. rewrite Hl. reflexivity.
Qed.

(** A cycle that measures another height resets the counter, and calls
    [save_state]. *)
Lemma cycle_changed (h : Z) (l : loop) :
  h <> last_height l ->
  cycle h l = {| last_height := h; all_loaded := all_loaded l;
                 scroll_attempts := 0; saves := (saves l ++ [true])%list |}.
Proof.
  intros Hne. unfold cycle.
  destruct (Z.eqb_spec h (last_height l)) as [E|_]; [contradiction|].
  reflexivity.
Qed.

(** A cycle that measures the same height counts it, and calls nothing. *)
Lemma cycle_unchanged (l : loop) :
  steady l ->
  cycle (last_height l) l =
    {| last_height := last_height l;
       all_loaded := (scroll_attempts l + 1 >=? 3)%Z;
       scroll_attempts := (scroll_attempts l + 1)%Z;
       saves := (saves l ++ [false])%list |}.
Proof.
  intros [Hl Ha]. destruct l as [lh al a sv]. cbn in *. subst al.
  unfold cycle. cbn. rewrite Z.eqb_refl.
  assert (Hcases : a = 0%Z \/ a = 1%Z \/ a = 2%Z) by lia.
  destruct Hcases as [->|[->| ->]]; reflexivity.
Qed.

Lemma cycle_last_height (h : Z) (l : loop) : last_height (cycle h l) = h.
Proof.
  unfold cycle. destruct (Z.eqb_spec h (last_height l)) as [E|_]; cbn; auto.
Qed.


Lemma cycle_steady_or_stagnated (h : Z) (l : loop) :
  steady l -> steady (cycle h l) \/ stagnated (cycle h l).
Proof.
  intros Hs. destruct (Z.eq_dec h (last_height l)) as [->|Hne].
  - rewrite (cycle_unchanged l Hs). destruct Hs as [Hl Ha].
    unfold steady, stagnated. cbn.
    assert (Hcases : scroll_attempts l = 0%Z \/ scroll_attempts l = 1%Z
                     \/ scroll_attempts l = 2%Z) by lia.
    destruct Hcases as [E|[E|E]]; rewrite E; cbn; [left|left|right];
      split; try reflexivity; lia.
  - rewrite (cycle_changed h l Hne). destruct Hs as [Hl Ha].
    left. split; cbn; [assumption | lia].
Qed.

(** In a running loop [save_state] is called in exactly the cycles that
    measure a new height. *)
Lemma cycle_saves_iff_changed (h : Z) (l : loop) :
  steady l ->
  saves (cycle h l) = (saves l ++ [negb (h =? last_height l)%Z])%list.
Proof.
  intros Hs. destruct (Z.eqb_spec h (last_height l)) as [->|Hne].
  - rewrite (cycle_unchanged l Hs). reflexivity.
  - rewrite (cycle_changed h l Hne). reflexivity.
Qed.

(** Heights that change in every cycle keep the loop going for as long
    as they are supplied: the counter compared with the ceiling is set
    back to 0 in each of these cycles. *)
Lemma changing_heights_never_load (heights : list Z) :
  forall l,
    steady l ->
    always_changing (last_height l) heights ->
    exists l',
      cycles heights l = Scrolling l' /\
      steady l' /\
      saves l' = (saves l ++ repeat true (List.length heights))%list.
Proof.
  induction heights as [|h later IH]; intros l Hs Hch.
  - exists l. cbn. rewrite (steady_scrolling l Hs), app_nil_r. auto.
  - destruct Hch as [Hne Hlater].
    cbn [cycles]. rewrite (steady_scrolling l Hs).
    rewrite (cycle_changed h l Hne).
    destruct (IH {| last_height := h; all_loaded := all_loaded l;
                    scroll_attempts := 0; saves := (saves l ++ [true])%list |})
      as (l' & Hrun & Hs' & Hsaves).
    + destruct Hs as [Hl _]. split; cbn; [assumption | lia].
    + exact Hlater.
    + exists l'. rewrite Hrun, Hsaves. cbn. rewrite <- app_assoc. auto.
Qed.

Lemma rising_always_changing (n : nat) :
  forall first previous,
    (previous < first)%Z -> always_changing previous (rising first n).
Proof.
  unfold rising. induction n as [|n IH]; intros first previous Hlt.
  - exact I.
  - cbn [seq map always_changing]. split; [lia|].
    rewrite <- seq_shift, map_map.
    rewrite Z.add_0_r.
    specialize (IH (first + 1)%Z first ltac:(lia)).
    erewrite map_ext; [exact IH|].
    intros i. cbn beta. lia.
Qed.

(** C2, on the code.  With heights that rise in every cycle the loop
    does not stop after 20 cycles: however many heights are supplied,
    the loop has run one cycle for each of them and is still scrolling,
    its counter at most 2.  The counter compared with
    [max_scroll_attempts] counts the cycles without a change and starts
    again from 0 at every change, so the ceiling of 20 bounds nothing.
    After 21 rising heights the loop has run 21 cycles and goes on. *)
Theorem rising_heights_pass_the_ceiling :
  (forall (first : Z) (n : nat),
     exists l,
       human_like_behavior first (rising (first + 1) n) = Scrolling l /\
       cycles_run (Scrolling l) = n /\
       all_loaded l = false /\
       (scroll_attempts l <= 2)%Z) /\
  human_like_behavior 0 (rising 1 21) =
    Scrolling {| last_height := 21; all_loaded := false; scroll_attempts := 0;
                 saves := repeat true 21 |}.
Proof.
  split; [|reflexivity].
  intros first n. unfold human_like_behavior.
  destruct (changing_heights_never_load (rising (first + 1) n)
              {| last_height := first; all_loaded := false;
                 scroll_attempts := 0; saves := [] |})
    as (l & Hrun & [Hl Ha] & Hsaves).
  - split; cbn; [reflexivity | lia].
  - apply rising_always_changing. cbn. lia.
  - exists l. rewrite Hrun. repeat split; try assumption; try lia.
    unfold cycles_run. cbn [final]. rewrite Hsaves. cbn.
    rewrite repeat_length. unfold rising. rewrite length_map, length_seq.
    reflexivity.
Qed.

(** C9, on the code.  The first height is 0 and the cycles measure 1, 2,
    3, 3, 3: the loop is still scrolling after the fifth cycle, and the
    fifth cycle made no [save_state] call (nor did the fourth), while
    the first three cycles each made one.  The test [scroll_attempts % 5
    == 0] looks at the counter of cycles without a change, which is 2
    then, not at the number of the cycle. *)
Theorem fifth_cycle_without_checkpoint :
  human_like_behavior 0 [1; 2; 3; 3; 3]%Z =
    Scrolling {| last_height := 3; all_loaded := false; scroll_attempts := 2;
                 saves := [true; true; true; false; false] |} /\
  nth_error (saves (final (human_like_behavior 0 [1; 2; 3; 3; 3]%Z))) 4 = Some false.
Proof.
  split; reflexivity.
Qed.

Lemma last_cons (A : Type) (a d : A) (l : list A) : last (a :: l) d = last l a.
Proof.
  revert a d. induction l as [|b l IH]; intros a d; [reflexivity|].
  change (last (a :: b :: l) d) with (last (b :: l) d).
  rewrite (IH b d), (IH b a). reflexivity.
Qed.


Lemma cycles_stagnated (heights : list Z) (l : loop) :
  stagnated l -> cycles heights l = Loaded l.
Proof.
  intros Hd. destruct heights; cbn [cycles];
    rewrite (stagnated_not_scrolling l Hd); reflexivity.
Qed.





End Scroll.

(** ** [save_single_connection] *)

Section Persistence.
Import scrapper Props.

Ltac run_save :=
  unfold save_single_connection, session_query_first, session_assign,
    session_add, session_commit, session_rollback, session_close, Session,
    record_call, print, with_session, with_table,
    Eff.try_finally, Eff.try_except_all, Eff.bind, Eff.gets, Eff.modify,
    Eff.ret, Eff.raise, Eff.lift;
  cbn [table session stdout calls fst snd now query_fails commit_fails].

(** The constructor call of lines 57-62 always fails: the class declares
    no attribute [source_profile]. *)
Lemma Connection_new_rejects_source_profile (n o u source : string) :
  models.Connection_new
    [("name", n); ("occupation", o); ("profile_url", u);
     ("source_profile", source)] = Raise TypeError.
Proof. reflexivity. Qed.

(** Every outcome of a call, by what the database does. *)
Lemma save_single_connection_outcome (env : db_env) (c : connection_data)
    (source : string) (w : world) :
  save_single_connection env c source w =
    if query_fails env then
      (Ok false,
       {| table := table w; session := [];
          stdout := (stdout w ++ [ErrorSaving (name c) SQLAlchemyError])%list;
          calls := (calls w ++ [(c, source)])%list |})
    else
      match models.first_by_profile_url (profile_url c) (table w) with
      | None =>
          (Ok false,
           {| table := table w; session := [];
              stdout := (stdout w ++ [ErrorSaving (name c) TypeError])%list;
              calls := (calls w ++ [(c, source)])%list |})
      | Some row =>
          if commit_fails env then
            (Ok false,
             {| table := table w; session := [];
                stdout := (stdout w ++ [UpdatedExisting (name c);
                                        ErrorSaving (name c) SQLAlchemyError])%list;
                calls := (calls w ++ [(c, source)])%list |})
          else
            (Ok true,
             {| table := map (models.update_row (now env) (models.id row)
                                (name c) (occupation c)) (table w);
                session := [];
                stdout := (stdout w ++ [UpdatedExisting (name c)])%list;
                calls := (calls w ++ [(c, source)])%list |})
      end.
Proof.
  run_save. unfold models.first_by_profile_url.
  destruct (query_fails env); cbn; [reflexivity|].
  destruct (find (models.url_is (profile_url c)) (table w)) as [row|]; cbn.
  - destruct (commit_fails env); cbn; rewrite <- ?app_assoc; reflexivity.
  - reflexivity.
Qed.


(** A profile URL the table does not hold is never stored: the call
    returns [False] and the table is unchanged. *)
Lemma save_new_profile_fails (env : db_env) (c : connection_data)
    (source : string) (w : world) :
  models.first_by_profile_url (profile_url c) (table w) = None ->
  fst (save_single_connection env c source w) = Ok false /\
  table (snd (save_single_connection env c source w)) = table w.
Proof.
  intros Hq. rewrite save_single_connection_outcome, Hq.
  destruct (query_fails env); cbn; auto.
Qed.

Lemma update_row_profile_url (t row_id : Z) (n o : string) (row : models.Connection) :
  models.profile_url (models.update_row t row_id n o row) = models.profile_url row.
Proof.
  unfold models.update_row.
  destruct (negb (models.id row =? row_id)%Z); [reflexivity|].
  destruct (String.eqb (models.name row) n && models.same_text (models.occupation row) o);
    reflexivity.
Qed.

Lemma first_by_profile_url_update (url : string) (t row_id : Z) (n o : string)
    (rows : list models.Connection) :
  models.first_by_profile_url url (map (models.update_row t row_id n o) rows) =
  option_map (models.update_row t row_id n o) (models.first_by_profile_url url rows).
Proof.
  unfold models.first_by_profile_url.
  induction rows as [|row rows IH]; [reflexivity|].
  cbn [map find]. unfold models.url_is at 1 3.
  rewrite update_row_profile_url.
  destruct (models.profile_url row) as [u|]; [|exact IH].
  destruct (String.eqb u url); [reflexivity | exact IH].
Qed.

(** The update path alone: for a profile URL the table holds, and a
    database that answers, the row found afterwards has the new name and
    occupation and the [id] and [first_seen] it had; [last_updated] is
    the time of the call when a value changed. *)
Lemma save_existing_profile_updates (t : Z) (c : connection_data)
    (source : string) (w : world) (row : models.Connection) :
  models.first_by_profile_url (profile_url c) (table w) = Some row ->
  exists row',
    fst (save_single_connection (calm t) c source w) = Ok true /\
    models.first_by_profile_url (profile_url c)
      (table (snd (save_single_connection (calm t) c source w))) = Some row' /\
    models.id row' = models.id row /\
    models.first_seen row' = models.first_seen row /\
    models.name row' = name c /\
    models.occupation row' = Some (occupation c) /\
    (models.occupation row <> Some (occupation c) -> models.last_updated row' = t).
Proof.
  intros Hq. rewrite save_single_connection_outcome, Hq.
  cbn [calm query_fails commit_fails now fst snd table].
  rewrite first_by_profile_url_update, Hq. cbn [option_map].
  eexists. split; [reflexivity|]. split; [reflexivity|].
  unfold models.update_row. rewrite Z.eqb_refl. cbn [negb].
  destruct (String.eqb_spec (models.name row) (name c)) as [En|Nn]; cbn [andb].
  - destruct (models.occupation row) as [o|] eqn:Eo; cbn [models.same_text].
    + destruct (String.eqb_spec o (occupation c)) as [->|No]; cbn.
      * repeat split; auto. intros H; contradiction.
      * repeat split; auto.
    + cbn. repeat split; auto.
  - cbn. repeat split; auto.
Qed.

(** C1, on the code.  The table is empty.  The record of Ann is saved
    with the occupation "Engineer" at time 10 and again with "Manager"
    at time 20, the database answering both times.  Both calls return
    [False]: building the new [Connection] raises [TypeError], because
    the call passes the keyword [source_profile], which the class of
    models.py does not declare.  The table is empty after both calls, so
    no row holds the second occupation. *)
Theorem new_profile_is_never_stored :
  let first := save_single_connection (calm 10) (ann "Engineer") "src"
                 (world_of []) in
  let second := save_single_connection (calm 20) (ann "Manager") "src"
                  (snd first) in
  fst first = Ok false /\
  fst second = Ok false /\
  table (snd second) = [] /\
  stdout (snd second) =
    [ErrorSaving "Ann" TypeError; ErrorSaving "Ann" TypeError].
Proof.
  repeat split; reflexivity.
Qed.

End Persistence.

(** ** [get_profile_connections] *)

Section Extraction.
Import scrapper Props.

Variable envs : nat -> db_env.
Variable w0 : world.

Lemma preserves_ret {W A} (P : W -> Prop) (a : A) : preserves P (Eff.ret a).
Proof. intros w Hw. exact Hw. Qed.

Lemma preserves_raise {W A} (P : W -> Prop) (e : exn) :
  preserves P (@Eff.raise W A e).
Proof. intros w Hw. exact Hw. Qed.

Lemma preserves_lift {W A} (P : W -> Prop) (r : result A) :
  preserves P (@Eff.lift W A r).
Proof. intros w Hw. exact Hw. Qed.

Lemma preserves_gets {W A} (P : W -> Prop) (f : W -> A) :
  preserves P (Eff.gets f).
Proof. intros w Hw. exact Hw. Qed.

Lemma preserves_bind {W A B} (P : W -> Prop) (c : Eff.M W A) (k : A -> Eff.M W B) :
  preserves P c -> (forall a, preserves P (k a)) -> preserves P (Eff.bind c k).
Proof.
  intros Hc Hk w Hw. unfold Eff.bind.
  specialize (Hc w Hw). destruct (c w) as [[a|e] w1]; cbn in *.
  - apply Hk. exact Hc.
  - exact Hc.
Qed.

Lemma preserves_try_except_all {W A} (P : W -> Prop) (body : Eff.M W A)
    (handler : exn -> Eff.M W A) :
  preserves P body -> (forall e, preserves P (handler e)) ->
  preserves P (Eff.try_except_all body handler).
Proof.
  intros Hb Hh w Hw. unfold Eff.try_except_all.
  specialize (Hb w Hw). destruct (body w) as [[a|e] w1]; cbn in *.
  - exact Hb.
  - apply Hh. exact Hb.
Qed.

Lemma save_single_connection_calls (env : db_env) (c : connection_data)
    (source : string) (w : world) :
  exists b w',
    save_single_connection env c source w = (Ok b, w') /\
    calls w' = (calls w ++ [(c, source)])%list.
Proof.
  rewrite save_single_connection_outcome.
  destruct (query_fails env); [do 2 eexists; split; reflexivity|].
  destruct (models.first_by_profile_url (profile_url c) (table w));
    [destruct (commit_fails env)|]; do 2 eexists; split; reflexivity.
Qed.

Lemma next_page_deduplicated : preserves (deduplicated w0) next_page.
Proof. intros r Hr. exact Hr. Qed.

(** One element keeps the record of the calls in step with
    [connections]. *)
Lemma process_element_deduplicated (el : element) :
  preserves (deduplicated w0) (process_element envs el).
Proof.
  intros r (Hcalls & Hnodup & Hmem).
  unfold process_element, Eff.try_except_all, Eff.bind, Eff.lift.
  destruct (extract_fields el) as [c|e]; cbn -[in_dec String.eqb];
    [|split; [exact Hcalls | split; [exact Hnodup | exact Hmem]]].
  unfold Eff.gets, note_extracted, Eff.modify; cbn -[in_dec String.eqb].
  destruct (in_dec connection_data_eq_dec c (connections r)) as [Hin|Hnin];
    cbn -[in_dec String.eqb].
  { (* seen before *)
    split; [exact Hcalls|]. split; [exact Hnodup|]. cbn.
    intros c'. rewrite Hmem, in_app_iff. cbn. split.
    - intros [H1 H2]. auto.
    - intros [[H1|[<-|[]]] H2]; [auto|].
      apply Hmem. exact Hin. }
  destruct (String.eqb_spec (name c) "N/A") as [Ena|Hname]; cbn -[in_dec String.eqb].
  { (* the sentinel *)
    split; [exact Hcalls|]. split; [exact Hnodup|]. cbn.
    intros c'. rewrite Hmem, in_app_iff. cbn. split.
    - intros [H1 H2]. auto.
    - intros [[H1|[<-|[]]] H2]; [auto | contradiction]. }
  unfold append_connection, on_world, Eff.modify; cbn -[save_single_connection].
  destruct (save_single_connection_calls
              (envs (List.length (calls (outside r)))) c (profile_url c) (outside r))
    as (b & w' & Hsave & Hcalls').
  rewrite Hsave. cbn.
  assert (Hgoal : forall ts fs,
    deduplicated w0
      {| connections := (connections r ++ [c])%list; total_saved := ts;
         failed_saves := fs; current_page := current_page r;
         extracted := (extracted r ++ [c])%list; outside := w' |}).
  { intros ts fs. split; [|split]; cbn.
    - rewrite Hcalls', Hcalls, map_app, <- app_assoc. reflexivity.
    - apply NoDup_app; [exact Hnodup | repeat constructor; intros [] |].
      intros x Hx [<-|[]]. contradiction.
    - intros c'. rewrite !in_app_iff, Hmem. cbn. split.
      + intros [[H1 H2]|[<-|[]]]; auto.
      + intros [[H1|[<-|[]]] H2]; auto. }
  destruct b; cbn; apply Hgoal.
Qed.

Lemma process_elements_deduplicated (els : list element) :
  preserves (deduplicated w0) (process_elements envs els).
Proof.
  induction els as [|el els IH]; cbn [process_elements].
  - apply preserves_ret.
  - apply preserves_bind; [apply process_element_deduplicated | intros _; exact IH].
Qed.

Lemma turn_deduplicated (view : page_view) :
  preserves (deduplicated w0) (turn envs view).
Proof.
  unfold turn. apply preserves_try_except_all; [|intros e; apply preserves_ret].
  destruct (load_fault view); [apply preserves_raise|].
  destruct (connection_elements view) as [|el els]; [apply preserves_ret|].
  apply preserves_bind; [apply process_elements_deduplicated|]. intros _.
  apply preserves_bind; [apply preserves_lift|]. intros [b|]; [|apply preserves_ret].
  apply preserves_bind; [apply preserves_lift|]. intros is_disabled.
  destruct (truthy is_disabled); [apply preserves_ret|].
  apply preserves_bind; [apply preserves_lift|]. intros _.
  apply preserves_bind; [apply next_page_deduplicated|]. intros _.
  apply preserves_ret.
Qed.

Lemma turns_deduplicated (connections_count : Z) (views : list page_view) :
  preserves (deduplicated w0) (turns envs connections_count views).
Proof.
  induction views as [|view later IH]; cbn [turns].
  - apply preserves_ret.
  - apply preserves_bind; [apply preserves_gets|]. intros total.
    destruct (total <? connections_count)%Z; [|apply preserves_ret].
    apply preserves_bind; [apply turn_deduplicated|]. intros [|].
    + exact IH.
    + apply preserves_ret.
Qed.

Lemma get_profile_connections_deduplicated (navigation : option Z)
    (views : list page_view) :
  deduplicated w0 (snd (get_profile_connections envs navigation views w0)).
Proof.
  assert (Hstart : deduplicated w0
            {| connections := []; total_saved := 0; failed_saves := 0;
               current_page := 1; extracted := []; outside := w0 |}).
  { split; [|split]; cbn.
    - rewrite app_nil_r. reflexivity.
    - constructor.
    - intros c. split; [intros [] | intros [[] _]]. }
  unfold get_profile_connections. destruct navigation as [n|]; [|exact Hstart].
  apply (preserves_bind (deduplicated w0)); [apply turns_deduplicated | | exact Hstart].
  intros _. apply preserves_gets.
Qed.

Lemma handed_over_deduplicated (r : run) :
  deduplicated w0 r -> handed_over w0 (outside r) = connections r.
Proof.
  intros (Hcalls & _ & _). unfold handed_over.
  rewrite Hcalls, skipn_app, skipn_all, Nat.sub_diag. cbn.
  rewrite map_map. unfold as_saved. cbn. apply map_id.
Qed.

End Extraction.

(** C5.  In a run of [get_profile_connections] started in any world,
    with any page views and any behaviour of the database, the number of
    calls of [save_single_connection] for a dict is 1 when the run
    built that dict (once or several times) and its name is not "N/A",
    and 0 otherwise: never more than one call for a dict, and none for a
    dict whose name is the sentinel. *)
Theorem each_tuple_saved_once (envs : nat -> scrapper.db_env)
    (navigation : option Z) (views : list scrapper.page_view)
    (w : scrapper.world) (c : scrapper.connection_data) :
  let r := snd (scrapper.get_profile_connections envs navigation views w) in
  count_occ scrapper.connection_data_eq_dec
    (Props.handed_over w (scrapper.outside r)) c =
  if in_dec scrapper.connection_data_eq_dec c (scrapper.extracted r)
  then if String.eqb (scrapper.name c) "N/A" then 0 else 1
  else 0.
Proof.
  intros r.
  pose proof (get_profile_connections_deduplicated envs w navigation views) as Hd.
  fold r in Hd. rewrite (handed_over_deduplicated w r Hd).
  destruct Hd as (_ & Hnodup & Hmem).
  assert (Hle : count_occ scrapper.connection_data_eq_dec (scrapper.connections r) c <= 1).
  { apply (proj1 (NoDup_count_occ scrapper.connection_data_eq_dec _) Hnodup). }
  destruct (in_dec scrapper.connection_data_eq_dec c (scrapper.extracted r)) as [Hin|Hnin].
  - destruct (String.eqb_spec (scrapper.name c) "N/A") as [Ena|Hname].
    + apply count_occ_not_In. intros Hc. apply Hmem in Hc. tauto.
    + assert (Hc : In c (scrapper.connections r)) by (apply Hmem; auto).
      apply (count_occ_In scrapper.connection_data_eq_dec) in Hc. lia.
  - apply count_occ_not_In. intros Hc. apply Hmem in Hc. tauto.
Qed.

(** Two overlapping page loads show Ann twice, and twice a container
    without a title: one call for Ann, none for the sentinel name. *)
Example overlapping_views_saved_once :
  let r := snd (scrapper.get_profile_connections (fun _ => Props.calm 10)
                  (Some 5%Z) Props.overlapping_views (Props.world_of [])) in
  scrapper.extracted r =
    [Props.ann "Engineer";
     {| scrapper.name := "N/A"; scrapper.occupation := "Engineer";
        scrapper.profile_url := "https://www.linkedin.com/in/ann" |};
     Props.ann "Engineer";
     {| scrapper.name := "N/A"; scrapper.occupation := "Engineer";
        scrapper.profile_url := "https://www.linkedin.com/in/ann" |}] /\
  scrapper.calls (scrapper.outside r) =
    [(Props.ann "Engineer", "https://www.linkedin.com/in/ann")].
Proof.
  split; reflexivity.
Qed.

(** * Further properties *)

(** ** [Scrapper.human_like_behavior]: the counter and the checkpoints *)

Section ScrollMore.
Import scroll Props.

Lemma cycles_steady_or_stagnated (heights : list Z) :
  forall l,
    steady l ->
    match cycles heights l with
    | Loaded l' => stagnated l'
    | Scrolling l' => steady l'
    end.
Proof.
  induction heights as [|h later IH]; intros l Hs; cbn [cycles];
    rewrite (steady_scrolling l Hs).
  - exact Hs.
  - destruct (cycle_steady_or_stagnated h l Hs) as [Hs'|Hd].
    + apply IH. exact Hs'.
    + rewrite (cycles_stagnated later _ Hd). exact Hd.
Qed.

(** X1.  Whatever the heights, the counter [scroll_attempts] stays
    between 0 and 3, below [max_scroll_attempts]: the loop is left
    exactly when the counter is 3 and [all_loaded] is set, never because
    of the ceiling. *)
Theorem counter_stays_below_ceiling (first_height : Z) (heights : list Z) :
  let o := human_like_behavior first_height heights in
  (0 <= scroll_attempts (final o) <= 3)%Z /\
  (scroll_attempts (final o) < max_scroll_attempts)%Z /\
  match o with
  | Loaded l => all_loaded l = true /\ scroll_attempts l = 3%Z
  | Scrolling l => all_loaded l = false /\ (scroll_attempts l <= 2)%Z
  end.
Proof.
  intros o.
  assert (H : match o with
              | Loaded l' => stagnated l'
              | Scrolling l' => steady l'
              end).
  { apply cycles_steady_or_stagnated. split; cbn; [reflexivity | lia]. }
  unfold max_scroll_attempts.
  destruct o as [l|l]; destruct H as [H1 H2]; cbn [final]; repeat split;
    try assumption; lia.
Qed.

Lemma saves_follow_changes (heights : list Z) :
  forall l,
    steady l ->
    exists k,
      k <= List.length heights /\
      saves (final (cycles heights l)) =
        (saves l ++ firstn k (changes (last_height l) heights))%list /\
      (forall l', cycles heights l = Scrolling l' -> k = List.length heights).
Proof.
  induction heights as [|h later IH]; intros l Hs; cbn [cycles];
    rewrite (steady_scrolling l Hs).
  - exists 0. cbn. rewrite app_nil_r. auto.
  - pose proof (cycle_saves_iff_changed h l Hs) as Hsv.
    destruct (cycle_steady_or_stagnated h l Hs) as [Hs'|Hd].
    + destruct (IH (cycle h l) Hs') as (k & Hk & Heq & Hall).
      exists (S k). split; [cbn; lia|]. split.
      * rewrite Heq, Hsv, cycle_last_height, <- app_assoc. reflexivity.
      * intros l' Hl'. cbn. f_equal. apply (Hall l'). exact Hl'.
    + rewrite (cycles_stagnated later _ Hd). exists 1. split; [cbn; lia|]. split.
      * cbn [final]. rewrite Hsv. reflexivity.
      * intros l' Hl'. discriminate.
Qed.

(** X2.  [save_state] is called in exactly the cycles that measure a
    height different from the one before: the log of the calls is the
    list of these changes, for the cycles run; while the loop is
    scrolling every height supplied has been used. *)
Theorem checkpoints_follow_changes (first_height : Z) (heights : list Z) :
  let o := human_like_behavior first_height heights in
  saves (final o) = firstn (cycles_run o) (changes first_height heights) /\
  cycles_run o <= List.length heights /\
  match o with
  | Scrolling _ => cycles_run o = List.length heights
  | Loaded _ => True
  end.
Proof.
  intros o. unfold cycles_run.
  destruct (saves_follow_changes heights
              {| last_height := first_height; all_loaded := false;
                 scroll_attempts := 0; saves := [] |})
    as (k & Hk & Heq & Hall).
  { split; cbn; [reflexivity | lia]. }
  fold (human_like_behavior first_height heights) in Heq, Hall. fold o in Heq, Hall.
  cbn [saves app last_height] in Heq.
  assert (Hlen : List.length (changes first_height heights) = List.length heights).
  { clear. revert first_height. induction heights as [|h later IH]; intros p; cbn;
      [reflexivity | rewrite IH; reflexivity]. }
  assert (Hk' : List.length (saves (final o)) = k).
  { rewrite Heq, length_firstn, Hlen. lia. }
  rewrite Hk'. split; [exact Heq|]. split; [exact Hk|].
  destruct o as [l|l] eqn:Eo; [exact I|]. apply (Hall l). reflexivity.
Qed.

Lemma cycle_counter_matches_log (h : Z) (l : loop) :
  steady l -> counter_matches_log l -> counter_matches_log (cycle h l).
Proof.
  intros Hs [earlier He]. destruct (Z.eq_dec h (last_height l)) as [->|Hne].
  - rewrite (cycle_unchanged l Hs). exists earlier. cbn [saves scroll_attempts].
    rewrite He, <- app_assoc. f_equal.
    destruct Hs as [_ Ha].
    replace (Z.to_nat (scroll_attempts l + 1))
      with (S (Z.to_nat (scroll_attempts l))) by lia.
    rewrite <- repeat_cons. reflexivity.
  - rewrite (cycle_changed h l Hne). exists (saves l ++ [true])%list.
    cbn. rewrite app_nil_r. reflexivity.
Qed.

Lemma cycles_counter_matches_log (heights : list Z) :
  forall l,
    steady l -> counter_matches_log l ->
    counter_matches_log (final (cycles heights l)).
Proof.
  induction heights as [|h later IH]; intros l Hs Hc; cbn [cycles];
    rewrite (steady_scrolling l Hs).
  - exact Hc.
  - pose proof (cycle_counter_matches_log h l Hs Hc) as Hc'.
    destruct (cycle_steady_or_stagnated h l Hs) as [Hs'|Hd].
    + apply IH; assumption.
    + rewrite (cycles_stagnated later _ Hd). exact Hc'.
Qed.

(** X3.  The loop declares the list loaded only after stagnation was
    really seen: when it is left, at least three cycles were run and the
    last three of them measured an unchanged height (and called no
    [save_state]). *)
Theorem loaded_only_after_stagnation (first_height : Z) (heights : list Z)
    (l : loop) :
  human_like_behavior first_height heights = Loaded l ->
  3 <= cycles_run (Loaded l) /\
  exists earlier,
    firstn (cycles_run (Loaded l)) (changes first_height heights) =
      (earlier ++ [false; false; false])%list.
Proof.
  intros Hrun.
  pose proof (counter_stays_below_ceiling first_height heights) as Hc.
  pose proof (checkpoints_follow_changes first_height heights) as Hf.
  cbn zeta in Hc, Hf. rewrite Hrun in Hc, Hf.
  destruct Hc as (_ & _ & _ & H3). destruct Hf as (Hsv & _).
  assert (Hm : counter_matches_log (final (human_like_behavior first_height heights))).
  { apply cycles_counter_matches_log.
    - split; cbn; [reflexivity | lia].
    - exists []. reflexivity. }
  rewrite Hrun in Hm. cbn [final] in *. destruct Hm as [earlier He].
  rewrite H3 in He. change (Z.to_nat 3) with 3 in He. cbn [repeat] in He.
  split.
  - unfold cycles_run. cbn [final]. rewrite He, length_app. cbn. lia.
  - exists earlier. rewrite <- Hsv. exact He.
Qed.

(** The witness of X3: the first height is 5 and the page never grows. *)
Lemma loaded_only_after_stagnation_witness :
  3 <= 3 /\
  exists earlier,
    firstn 3 (changes 5 [5; 5; 5; 9]%Z) = (earlier ++ [false; false; false])%list.
Proof.
  exact (loaded_only_after_stagnation 5 [5; 5; 5; 9]%Z
           {| last_height := 5; all_loaded := true; scroll_attempts := 3;
              saves := [false; false; false] |} eq_refl).
Defined.

End ScrollMore.

(** ** [save_single_connection]: what a call leaves alone *)

Section PersistenceMore.
Import scrapper Props.

Lemma update_row_id (t row_id : Z) (n o : string) (row : models.Connection) :
  models.id (models.update_row t row_id n o row) = models.id row.
Proof.
  unfold models.update_row.
  destruct (negb (models.id row =? row_id)%Z); [reflexivity|].
  destruct (String.eqb (models.name row) n && models.same_text (models.occupation row) o);
    reflexivity.
Qed.

Lemma update_row_first_seen (t row_id : Z) (n o : string) (row : models.Connection) :
  models.first_seen (models.update_row t row_id n o row) = models.first_seen row.
Proof.
  unfold models.update_row.
  destruct (negb (models.id row =? row_id)%Z); [reflexivity|].
  destruct (String.eqb (models.name row) n && models.same_text (models.occupation row) o);
    reflexivity.
Qed.

Lemma table_after_save (env : db_env) (c : connection_data) (source : string)
    (w : world) :
  table (snd (save_single_connection env c source w)) = table w \/
  exists row,
    models.first_by_profile_url (profile_url c) (table w) = Some row /\
    table (snd (save_single_connection env c source w)) =
      map (models.update_row (now env) (models.id row) (name c) (occupation c))
        (table w).
Proof.
  rewrite save_single_connection_outcome.
  destruct (query_fails env); [left; reflexivity|].
  destruct (models.first_by_profile_url (profile_url c) (table w)) as [row|];
    [|left; reflexivity].
  destruct (commit_fails env); [left; reflexivity|].
  right. exists row. split; reflexivity.
Qed.

(** X4.  No call, whatever the record, the database and the table, adds
    or removes a row or changes the [id], the [first_seen] or the
    [profile_url] of any row. *)
Theorem save_keeps_identities (env : db_env) (c : connection_data)
    (source : string) (w : world) :
  let after := table (snd (save_single_connection env c source w)) in
  map models.id after = map models.id (table w) /\
  map models.first_seen after = map models.first_seen (table w) /\
  map models.profile_url after = map models.profile_url (table w) /\
  List.length after = List.length (table w).
Proof.
  intros after. subst after.
  destruct (table_after_save env c source w) as [->|(row & _ & ->)].
  - repeat split; reflexivity.
  - rewrite !map_map, length_map. repeat split; apply map_ext; intros r.
    + apply update_row_id.
    + apply update_row_first_seen.
    + apply update_row_profile_url.
Qed.

(** X5.  The update path: for a profile URL the table holds, and a
    database that answers, the call returns [True] and the row found
    afterwards has the new name and occupation and the [id] and
    [first_seen] it had before; [last_updated] is the time of the call
    when the occupation changed. *)
Theorem update_keeps_id_and_first_seen (t : Z) (c : connection_data)
    (source : string) (w : world) (row : models.Connection) :
  models.first_by_profile_url (profile_url c) (table w) = Some row ->
  exists row',
    fst (save_single_connection (calm t) c source w) = Ok true /\
    models.first_by_profile_url (profile_url c)
      (table (snd (save_single_connection (calm t) c source w))) = Some row' /\
    models.id row' = models.id row /\
    models.first_seen row' = models.first_seen row /\
    models.name row' = name c /\
    models.occupation row' = Some (occupation c) /\
    (models.occupation row <> Some (occupation c) -> models.last_updated row' = t).
Proof.
  exact (save_existing_profile_updates t c source w row).
Qed.

(** The witness of X5: Ann's row is in the table and her occupation
    changes at time 20. *)
Lemma update_keeps_id_and_first_seen_witness :
  exists row',
    fst (save_single_connection (calm 20) (ann "Manager") "src"
           (world_of [ann_row])) = Ok true /\
    models.first_by_profile_url "https://www.linkedin.com/in/ann"
      (table (snd (save_single_connection (calm 20) (ann "Manager") "src"
                     (world_of [ann_row])))) = Some row' /\
    models.id row' = 7%Z /\
    models.first_seen row' = 3%Z /\
    models.name row' = "Ann" /\
    models.occupation row' = Some "Manager" /\
    (models.occupation ann_row <> Some "Manager" -> models.last_updated row' = 20%Z).
Proof.
  exact (update_keeps_id_and_first_seen 20 (ann "Manager") "src"
           (world_of [ann_row]) ann_row eq_refl).
Defined.

Lemma update_row_twice (t1 t2 row_id : Z) (n o : string) (row : models.Connection) :
  models.update_row t2 row_id n o (models.update_row t1 row_id n o row) =
  models.update_row t1 row_id n o row.
Proof.
  unfold models.update_row at 2.
  destruct (negb (models.id row =? row_id)%Z) eqn:Eid.
  - unfold models.update_row. rewrite Eid. reflexivity.
  - destruct (String.eqb (models.name row) n
              && models.same_text (models.occupation row) o) eqn:Esame.
    + unfold models.update_row. rewrite Eid, Esame. reflexivity.
    + unfold models.update_row. rewrite ?Eid, ?Esame. cbn.
      rewrite ?Eid, ?String.eqb_refl. reflexivity.
Qed.

(** X6.  Saving the same record a second time changes nothing in the
    table, whenever the second call comes: the rows keep the
    [last_updated] the first call left. *)
Theorem save_again_changes_nothing (env1 env2 : db_env) (c : connection_data)
    (source1 source2 : string) (w : world) :
  query_fails env1 = false -> commit_fails env1 = false ->
  let once := snd (save_single_connection env1 c source1 w) in
  table (snd (save_single_connection env2 c source2 once)) = table once.
Proof.
  intros Hq Hc once.
  destruct (table_after_save env2 c source2 once) as [E|(row2 & Hrow2 & E)];
    [exact E|].
  rewrite E. subst once. revert Hrow2.
  rewrite save_single_connection_outcome, Hq.
  destruct (models.first_by_profile_url (profile_url c) (table w)) as [row|] eqn:Hrow.
  - rewrite Hc. cbn [snd table].
    rewrite first_by_profile_url_update, Hrow. cbn [option_map].
    intros Hrow2. inversion Hrow2; subst row2. rewrite update_row_id.
    rewrite map_map. apply map_ext. intros r. apply update_row_twice.
  - cbn [snd table]. rewrite Hrow. discriminate.
Qed.

(** The witness of X6: Ann becomes a manager at time 20 and is saved
    again at time 30. *)
Lemma save_again_changes_nothing_witness :
  table (snd (save_single_connection (calm 30) (ann "Manager") "src"
                (snd (save_single_connection (calm 20) (ann "Manager") "src"
                        (world_of [ann_row]))))) =
  table (snd (save_single_connection (calm 20) (ann "Manager") "src"
                (world_of [ann_row]))).
Proof.
  exact (save_again_changes_nothing (calm 20) (calm 30) (ann "Manager")
           "src" "src" (world_of [ann_row]) eq_refl eq_refl).
Defined.

End PersistenceMore.

(** ** [get_profile_connections]: the result and the counters *)

Section ExtractionMore.
Import scrapper Props.

Variable envs : nat -> db_env.

Lemma returns_ret {W A} (a : A) : returns (@Eff.ret W A a).
Proof. intros w. exists a. reflexivity. Qed.


Lemma returns_modify {W} (f : W -> W) : returns (Eff.modify f).
Proof. intros w. exists tt. reflexivity. Qed.

Lemma returns_bind {W A B} (c : Eff.M W A) (k : A -> Eff.M W B) :
  returns c -> (forall a, returns (k a)) -> returns (Eff.bind c k).
Proof.
  intros Hc Hk w. unfold Eff.bind.
  destruct (Hc w) as [a Ha]. destruct (c w) as [r w1]. cbn in Ha. subst r.
  apply Hk.
Qed.

Lemma returns_try_except_all {W A} (body : Eff.M W A) (handler : exn -> Eff.M W A) :
  (forall e, returns (handler e)) -> returns (Eff.try_except_all body handler).
Proof.
  intros Hh w. unfold Eff.try_except_all.
  destruct (body w) as [[a|e] w1].
  - exists a. reflexivity.
  - apply Hh.
Qed.

Lemma process_element_returns (el : element) : returns (process_element envs el).
Proof.
  apply returns_try_except_all. intros e. apply returns_ret.
Qed.

Lemma process_elements_returns (els : list element) :
  returns (process_elements envs els).
Proof.
  induction els as [|el els IH]; cbn [process_elements].
  - apply returns_ret.
  - apply returns_bind; [apply process_element_returns | intros _; exact IH].
Qed.








(** X8.  The second argument of every call of [save_single_connection]
    made by a run is the profile URL of the dict being saved, not the
    URL of the profile whose connections are read: line 175 assigns the
    connection's link to the variable [profile_url] that line 188
    passes. *)
Theorem source_profile_is_own_url (navigation : option Z)
    (views : list page_view) (w : world) :
  let r := snd (get_profile_connections envs navigation views w) in
  Forall (fun call => snd call = profile_url (fst call))
    (skipn (List.length (calls w)) (calls (outside r))).
Proof.
  intros r.
  pose proof (get_profile_connections_deduplicated envs w navigation views)
    as (Hcalls & _ & _).
  fold r in Hcalls. rewrite Hcalls, skipn_app, skipn_all, Nat.sub_diag. cbn.
  apply Forall_forall. intros call Hin. apply in_map_iff in Hin.
  destruct Hin as (c & <- & _). reflexivity.
Qed.

(** X9.  With an expected count of zero or less the loop is never
    entered: the run returns the empty list, queries no page and leaves
    the database untouched. *)
Theorem no_count_no_extraction (connections_count : Z)
    (views : list page_view) (w : world) :
  (connections_count <= 0)%Z ->
  get_profile_connections envs (Some connections_count) views w =
    (Ok [], {| connections := []; total_saved := 0; failed_saves := 0;
               current_page := 1; extracted := []; outside := w |}).
Proof.
  intros Hle. unfold get_profile_connections.
  destruct views as [|view later]; [reflexivity|].
  cbn [turns]. unfold Eff.bind, Eff.gets, Eff.ret. cbn.
  destruct (Z.ltb_spec 0 connections_count) as [Hlt|_]; [lia|]. reflexivity.
Qed.

End ExtractionMore.

(** The witness of X9: the count read was 0, two pages are waiting. *)
Lemma no_count_no_extraction_witness :
  scrapper.get_profile_connections (fun _ => Props.calm 10) (Some 0%Z)
    Props.overlapping_views (Props.world_of [Props.ann_row]) =
  (Ok [], {| scrapper.connections := []; scrapper.total_saved := 0;
             scrapper.failed_saves := 0; scrapper.current_page := 1;
             scrapper.extracted := [];
             scrapper.outside := Props.world_of [Props.ann_row] |}).
Proof.
  apply (no_count_no_extraction (fun _ => Props.calm 10) 0
           Props.overlapping_views (Props.world_of [Props.ann_row])).
  lia.
Defined.

(** ** Built-in string functions: what the callers rely on *)

Section Strings.
Import Props.









End Strings.

(** ** [get_profile_connections]: the dict of an element *)

Section Fields.
Import scrapper Props.


End Fields.

(** ** [main]: the profile URL *)

Section ProfileUrl.
Import cli.


End ProfileUrl.

(** ** [PersistentBrowser]: saving and restoring the session *)

Section BrowserMore.
Import persistent_browser Props.

Ltac run_manager :=
  unfold close, save_state, start, new_context, path_exists, library, write_file,
    set_self, Eff.try_finally, Eff.when, Eff.bind, Eff.gets, Eff.modify,
    Eff.ret, Eff.raise, truthy;
  cbn [self env files attempted fails storage_state_path browser context page
       fst snd cookies].

(** X12.  When the session-state file holds a stored state and the
    library works, [start] returns the page and the context is created
    from that file: it starts with the stored cookies. *)
Theorem start_restores_stored_state (o : PersistentBrowser) (w : world)
    (st : storage_state) :
  files w (storage_state_path o) = Stored st ->
  reliable w ->
  exists s',
    start {| self := o; env := w |} = (Ok tab, s') /\
    context (self s') = Some {| cookies := st |} /\
    browser (self s') = Some chromium /\
    page (self s') = Some tab /\
    storage_state_path (self s') = storage_state_path o /\
    attempted (env s') =
      (attempted w ++ [StartPlaywright; Launch;
                       NewContext (Some (storage_state_path o)); NewPage])%list /\
    files (env s') = files w /\
    fails (env s') = fails w.
Proof.
  intros Hst Hok. run_manager.
  repeat (first [rewrite Hok | rewrite Hst]; cbn).
  eexists. split; [reflexivity|]. cbn.
  repeat split. rewrite <- !app_assoc. reflexivity.
Qed.

(** The witness of X12: the file holds one cookie. *)
Lemma start_restores_stored_state_witness :
  exists s',
    start {| self := __init__ "browser_state.json";
             env := world_with (Stored [("li_at", "secret")]) nothing_fails |}
      = (Ok tab, s') /\
    context (self s') = Some {| cookies := [("li_at", "secret")] |}.
Proof.
  destruct (start_restores_stored_state (__init__ "browser_state.json")
              (world_with (Stored [("li_at", "secret")]) nothing_fails)
              [("li_at", "secret")] eq_refl (fun c => eq_refl))
    as (s' & H1 & H2 & _).
  exists s'. split; assumption.
Defined.




(** X14.  [save_state] can be repeated: a second call right after the
    first ends the same way and leaves every file as the first call
    left it. *)
Theorem save_state_again (s : state) (p : string) :
  let once := snd (save_state s) in
  fst (save_state once) = fst (save_state s) /\
  files (env (snd (save_state once))) p = files (env once) p.
Proof.
  destruct s as [[path b c pg] [fl att fa]].
  run_manager. destruct c as [ctx|]; cbn; [|auto].
  destruct (fa (StorageState path)) eqn:E; cbn; rewrite ?E; cbn; [auto|].
  split; [reflexivity|]. destruct (String.eqb p path); reflexivity.
Qed.

(** X15.  [close] keeps what its [save_state] wrote: whatever fails
    during the releases, the files after [close] are the files after
    [save_state] alone. *)
Theorem close_keeps_saved_state (s : state) (p : string) :
  files (env (snd (close s))) p = files (env (snd (save_state s))) p.
Proof.
  destruct s as [[path b c pg] [fl att fa]].
  destruct b, c, pg; run_manager; cbn;
    repeat match goal with
           | |- context [fa ?x] => destruct (fa x) eqn:?; cbn
           end;
    reflexivity.
Qed.

(** X16.  After a [start] that failed on a corrupt session-state file
    (the library working otherwise), [close] releases the browser that
    was launched, returns, and leaves the corrupt file as it is: with no
    context there is nothing to save over it. *)
Theorem close_after_failed_start (path : string) (w : world) :
  files w path = Corrupt ->
  reliable w ->
  let s1 := snd (start {| self := __init__ path; env := w |}) in
  fst (close s1) = Ok tt /\
  attempted (env (snd (close s1))) =
    (attempted w ++ [StartPlaywright; Launch; NewContext (Some path);
                     BrowserClose])%list /\
  files (env (snd (close s1))) = files w.
Proof.
  intros Hbad Hok. run_manager.
  repeat (first [rewrite Hok | rewrite Hbad]; cbn).
  repeat split. rewrite <- !app_assoc. reflexivity.
Qed.

(** The witness of X16. *)
Lemma close_after_failed_start_witness :
  let s1 := snd (start {| self := __init__ "browser_state.json";
                          env := world_with Corrupt nothing_fails |}) in
  fst (close s1) = Ok tt /\
  attempted (env (snd (close s1))) =
    [StartPlaywright; Launch; NewContext (Some "browser_state.json"); BrowserClose] /\
  files (env (snd (close s1))) = files (world_with Corrupt nothing_fails).
Proof.
  exact (close_after_failed_start "browser_state.json"
           (world_with Corrupt nothing_fails) eq_refl (fun c => eq_refl)).
Defined.

(** X17.  A whole session with a working library and a file that is
    missing or holds a stored state: [start], then [close].  [close]
    returns, the calls are the four of [start], the save, and the
    releases of page, context and browser in this order, and the file
    then holds the cookies the context started with. *)
Theorem start_then_close (path : string) (w : world) :
  files w path <> Corrupt ->
  reliable w ->
  let s1 := snd (start {| self := __init__ path; env := w |}) in
  fst (close s1) = Ok tt /\
  attempted (env (snd (close s1))) =
    (attempted w ++
     [StartPlaywright; Launch;
      NewContext (match files w path with Missing => None | _ => Some path end);
      NewPage; StorageState path; PageClose; ContextClose; BrowserClose])%list /\
  files (env (snd (close s1))) path = Stored (restored (files w path)).
Proof.
  intros Hgood Hok. run_manager.
  destruct (files w path) as [| |st] eqn:Ef; [|contradiction|];
    repeat (first [rewrite Hok | rewrite Ef]; cbn);
    rewrite String.eqb_refl; repeat split; rewrite <- !app_assoc; reflexivity.
Qed.

(** The witness of X17: a first run, with no file yet. *)
Lemma start_then_close_witness :
  let s1 := snd (start {| self := __init__ "browser_state.json";
                          env := world_with Missing nothing_fails |}) in
  fst (close s1) = Ok tt /\
  attempted (env (snd (close s1))) =
    [StartPlaywright; Launch; NewContext None; NewPage;
     StorageState "browser_state.json"; PageClose; ContextClose; BrowserClose] /\
  files (env (snd (close s1))) "browser_state.json" = Stored [].
Proof.
  apply (start_then_close "browser_state.json" (world_with Missing nothing_fails)).
  - discriminate.
  - intros c. reflexivity.
Defined.

End BrowserMore.

(** ** [Scrapper.extract_connection_count]: the first word *)

Section CountMore.
Import Props.

Lemma append_empty_r (s : string) : s ++ "" = s.
Proof.
  induction s as [|c s IH]; cbn; [reflexivity | rewrite IH; reflexivity].
Qed.

Lemma append_assoc (a b c : string) : (a ++ b) ++ c = a ++ (b ++ c).
Proof.
  induction a as [|x a IH]; cbn; [reflexivity | rewrite IH; reflexivity].
Qed.

Lemma prefix_one_char (ch c : ascii) (s : string) :
  prefix (String ch EmptyString) (String c s) = Ascii.eqb c ch.
Proof.
  cbn [prefix]. destruct (ascii_dec ch c) as [->|Hne].
  - rewrite Ascii.eqb_refl. destruct s; reflexivity.
  - destruct (Ascii.eqb_spec c ch) as [->|_]; [contradiction | reflexivity].
Qed.

(** Splitting on a character that the first word does not hold. *)
Lemma split_word_then_sep (ch : ascii) (word rest : string) :
  has_char ch word = false ->
  forall cur,
    split_from (String ch EmptyString) 0 cur (word ++ String ch rest) =
    (cur ++ word) :: split_from (String ch EmptyString) 0 EmptyString rest.
Proof.
  induction word as [|c word IH]; intros Hw cur.
  - cbn [append split_from]. rewrite prefix_one_char, Ascii.eqb_refl, append_empty_r.
    reflexivity.
  - cbn in Hw. apply orb_false_iff in Hw. destruct Hw as [Hc Hw].
    cbn [append split_from]. rewrite prefix_one_char, Hc, (IH Hw), append_assoc.
    reflexivity.
Qed.

Lemma split_word_alone (ch : ascii) (word : string) :
  has_char ch word = false ->
  forall cur, split_from (String ch EmptyString) 0 cur word = [cur ++ word].
Proof.
  induction word as [|c word IH]; intros Hw cur.
  - cbn. rewrite append_empty_r. reflexivity.
  - cbn in Hw. apply orb_false_iff in Hw. destruct Hw as [Hc Hw].
    cbn [split_from]. rewrite prefix_one_char, Hc, (IH Hw), append_assoc.
    reflexivity.
Qed.

(** X18.  Only the first word counts: what follows the first blank of
    the text never changes the result. *)
Theorem extract_connection_count_first_word (int_max_str_digits : nat)
    (word rest : string) :
  has_char " " word = false ->
  Count.extract_connection_count int_max_str_digits (word ++ String " " rest) =
  Count.extract_connection_count int_max_str_digits word.
Proof.
  intros Hw. unfold Count.extract_connection_count, Count.clean_number, split.
  rewrite (split_word_then_sep " " word rest Hw), (split_word_alone " " word Hw).
  reflexivity.
Qed.

(** The witness of X18. *)
Lemma extract_connection_count_first_word_witness :
  Count.extract_connection_count 4300 ("1,704" ++ String " " "Connections") =
  Count.extract_connection_count 4300 "1,704".
Proof.
  exact (extract_connection_count_first_word 4300 "1,704" "Connections" eq_refl).
Defined.

(** A text that begins with a blank gives 0, whatever follows: its
    first word is empty. *)
Lemma extract_connection_count_leading_blank (int_max_str_digits : nat)
    (rest : string) :
  Count.extract_connection_count int_max_str_digits (String " " rest) = Ok 0%Z.
Proof.
  destruct rest; reflexivity.
Qed.

(** *** Decimal numerals *)

Lemma uint_has_no (ch : ascii) (d : Decimal.uint) :
  isdigit ch = false -> has_char ch (NilEmpty.string_of_uint d) = false.
Proof.
  intros Hch.
  induction d; cbn [NilEmpty.string_of_uint has_char]; try reflexivity;
    rewrite IHd, orb_false_r;
    match goal with
    | |- Ascii.eqb ?c ch = false =>
        destruct (Ascii.eqb_spec c ch) as [<-|_]; [discriminate Hch | reflexivity]
    end.
Qed.

Lemma scan_digit_step (c : ascii) (prev : scanned) (acc : Z) (count : nat)
    (s : string) :
  isdigit c = true ->
  scan_digits prev acc count (String c s) =
  scan_digits AfterDigit (10 * acc + digit_value c)%Z (S count) s.
Proof.
  intros Hc. cbn [scan_digits]. rewrite Hc. reflexivity.
Qed.

(** Reading a numeral gives the number it writes. *)
Lemma scan_uint (d : Decimal.uint) :
  forall (a count : nat),
    scan_digits AfterDigit (Z.of_nat a) count (NilEmpty.string_of_uint d) =
    Some (Z.of_nat (Nat.of_uint_acc d a),
          count + String.length (NilEmpty.string_of_uint d),
          EmptyString).
Proof.
  induction d; intros a count;
    cbn [NilEmpty.string_of_uint Nat.of_uint_acc String.length].
  1: { cbn. rewrite Nat.add_0_r. reflexivity. }
  all: rewrite scan_digit_step by reflexivity;
    match goal with
    | |- scan_digits _ ?z _ _ = Some (Z.of_nat (Nat.of_uint_acc _ ?m), _, _) =>
        replace z with (Z.of_nat m)
          by (rewrite Nat.tail_mul_spec;
              match goal with
              | |- context [digit_value ?c] =>
                  let v := eval vm_compute in (digit_value c) in
                  change (digit_value c) with v
              end; lia)
    end;
    rewrite IHd, Nat.add_succ_r; reflexivity.
Qed.

Lemma scan_uint_from_start (d : Decimal.uint) :
  d <> Decimal.Nil ->
  scan_digits AtStart 0 0 (NilEmpty.string_of_uint d) =
  Some (Z.of_nat (Nat.of_uint d), String.length (NilEmpty.string_of_uint d),
        EmptyString).
Proof.
  intros Hd. destruct d; [contradiction|..];
    cbn [NilEmpty.string_of_uint String.length];
    rewrite scan_digit_step by reflexivity;
    unfold Nat.of_uint; cbn [Nat.of_uint_acc];
    match goal with
    | |- scan_digits _ ?z _ _ = Some (Z.of_nat (Nat.of_uint_acc _ ?m), _, _) =>
        replace z with (Z.of_nat m)
          by (rewrite Nat.tail_mul_spec;
              match goal with
              | |- context [digit_value ?c] =>
                  let v := eval vm_compute in (digit_value c) in
                  change (digit_value c) with v
              end; lia)
    end;
    rewrite scan_uint; reflexivity.
Qed.

Lemma to_uint_not_nil (n : nat) : Nat.to_uint n <> Decimal.Nil.
Proof.
  rewrite <- (Unsigned.of_to n) at 1. rewrite Unsigned.to_of.
  unfold Decimal.unorm. destruct (Decimal.nzhead (Nat.to_uint n)); discriminate.
Qed.

Lemma skip_blanks_uint (d : Decimal.uint) :
  skip_blanks (NilEmpty.string_of_uint d) = NilEmpty.string_of_uint d.
Proof.
  destruct d; reflexivity.
Qed.

(** [int(str(n))] is [n], for a numeral that is not too long. *)
Lemma int_decimal (limit n : nat) :
  String.length (decimal n) <= 640 ->
  int limit (decimal n) = Ok (Z.of_nat n).
Proof.
  intros Hlen. unfold decimal in *.
  pose proof (to_uint_not_nil n) as Hd.
  pose proof (scan_uint_from_start _ Hd) as Hscan.
  rewrite Unsigned.of_to in Hscan.
  assert (Hun : int_unsigned limit (NilEmpty.string_of_uint (Nat.to_uint n))
                = Ok (Z.of_nat n)).
  { unfold int_unsigned. rewrite Hscan. unfold too_many_digits.
    destruct (Nat.ltb_spec 640
                (String.length (NilEmpty.string_of_uint (Nat.to_uint n))))
      as [Hlt|_]; [lia|]. reflexivity. }
  unfold int. rewrite skip_blanks_uint.
  destruct (Nat.to_uint n); [contradiction|..]; exact Hun.
Qed.

Lemma replace_commas_uint (d : Decimal.uint) :
  replace "," "" (NilEmpty.string_of_uint d) = NilEmpty.string_of_uint d.
Proof.
  unfold replace.
  induction d; cbn [NilEmpty.string_of_uint replace_from]; try reflexivity;
    rewrite prefix_one_char; cbn [Ascii.eqb Bool.eqb]; rewrite IHd; reflexivity.
Qed.

(** X19.  Reading back a count that was written in decimal: for every
    natural number [n] whose numeral has at most 640 digits, the text
    made of the numeral, a blank and anything else gives [n]. *)
Theorem extract_connection_count_decimal (int_max_str_digits n : nat)
    (rest : string) :
  String.length (decimal n) <= 640 ->
  Count.extract_connection_count int_max_str_digits
    (decimal n ++ String " " rest) = Ok (Z.of_nat n).
Proof.
  intros Hlen.
  rewrite extract_connection_count_first_word
    by (apply uint_has_no; reflexivity).
  unfold Count.extract_connection_count, Count.clean_number, split.
  rewrite (split_word_alone " " (decimal n)) by (apply uint_has_no; reflexivity).
  cbn [getitem nth_error rbind append]. unfold decimal at 1.
  rewrite replace_commas_uint. fold (decimal n).
  rewrite (int_decimal _ n Hlen). reflexivity.
Qed.

(** The witness of X19. *)
Lemma extract_connection_count_decimal_witness :
  Count.extract_connection_count 4300 (decimal 1704 ++ String " " "Connections")
  = Ok 1704%Z.
Proof.
  apply (extract_connection_count_decimal 4300 1704 "Connections").
  vm_compute. lia.
Defined.

End CountMore.

(** ** [get_total_pages] *)

Section Pages.
Import pagination Props.

Variable int_max_str_digits : nat.

(** X20.  [get_total_pages] never raises.  It answers 1 when the query
    raises, when there is no pagination element, when reading its text
    raises, and when the text after the last "of" is no integer. *)
Theorem get_total_pages_defaults :
  (forall q, exists n, get_total_pages int_max_str_digits q = Ok n) /\
  (forall e, get_total_pages int_max_str_digits (Raise e) = Ok 1%Z) /\
  get_total_pages int_max_str_digits (Ok None) = Ok 1%Z /\
  (forall e, get_total_pages int_max_str_digits (Ok (Some (Raise e))) = Ok 1%Z) /\
  (forall text piece,
     rbind (split "of" text) getitem_last = Ok piece ->
     int int_max_str_digits (strip piece) = Raise ValueError ->
     get_total_pages int_max_str_digits (Ok (Some (Ok text))) = Ok 1%Z).
Proof.
  split; [|split; [|split; [|split]]]; try reflexivity.
  - intros q. unfold get_total_pages, try_except.
    match goal with
    | |- exists n, rbind (match ?b with _ => _ end) _ = _ => destruct b as [[m|]|e]
    end; cbn; eauto.
  - intros text piece Hpiece Hint. unfold get_total_pages. cbn [rbind].
    destruct (split "of" text) as [parts|e]; [|discriminate].
    cbn [rbind] in *. rewrite Hpiece. cbn [rbind]. rewrite Hint. reflexivity.
Qed.

Lemma split_without_first_char (ch : ascii) (sep' s : string) :
  has_char ch s = false ->
  forall cur, split_from (String ch sep') 0 cur s = [cur ++ s].
Proof.
  induction s as [|c s IH]; intros Hs cur.
  - cbn. rewrite append_empty_r. reflexivity.
  - cbn in Hs. apply orb_false_iff in Hs. destruct Hs as [Hc Hs].
    cbn [split_from prefix].
    destruct (ascii_dec ch c) as [<-|_];
      [rewrite Ascii.eqb_refl in Hc; discriminate|].
    rewrite (IH Hs), append_assoc. reflexivity.
Qed.

Lemma lstrip_uint (d : Decimal.uint) :
  lstrip (NilEmpty.string_of_uint d) = NilEmpty.string_of_uint d.
Proof.
  destruct d; reflexivity.
Qed.

Lemma rstrip_uint (d : Decimal.uint) :
  rstrip (NilEmpty.string_of_uint d) = NilEmpty.string_of_uint d.
Proof.
  induction d; cbn [NilEmpty.string_of_uint rstrip]; try reflexivity;
    rewrite IHd; destruct (NilEmpty.string_of_uint d); reflexivity.
Qed.

(** X21.  Reading back the number of pages: for every natural number
    [n] whose numeral has at most 640 digits, the text "Page 1 of "
    followed by the numeral gives [n]. *)
Theorem get_total_pages_decimal (n : nat) :
  String.length (decimal n) <= 640 ->
  get_total_pages int_max_str_digits (Ok (Some (Ok ("Page 1 of " ++ decimal n))))
  = Ok (Z.of_nat n).
Proof.
  intros Hlen. unfold get_total_pages, split. cbn [rbind append].
  assert (Hsplit : split_from "of" 0 "" ("Page 1 of " ++ decimal n)
                   = ["Page 1 "; " " ++ decimal n]).
  { cbn [append split_from prefix String.length Nat.sub].
    repeat match goal with
           | |- context [ascii_dec ?a ?b] =>
               let r := eval vm_compute in
                 (if ascii_dec a b then true else false) in
               match r with
               | true => destruct (ascii_dec a b) as [_|H]; [|exfalso; apply H; reflexivity]
               | false => destruct (ascii_dec a b) as [H|_]; [discriminate H|]
               end;
               cbn [append split_from prefix String.length Nat.sub]
           end.
    destruct (decimal n) eqn:E.
    - reflexivity.
    - rewrite <- E.
      rewrite (split_without_first_char "o" "f" (decimal n))
        by (apply uint_has_no; reflexivity).
      reflexivity. }
  cbn [append] in Hsplit. rewrite Hsplit.
  unfold getitem_last. cbn [rev app rbind].
  unfold strip. cbn [lstrip]. change (isspace " ") with true. cbn iota.
  unfold decimal at 1. rewrite lstrip_uint, rstrip_uint. fold (decimal n).
  rewrite (int_decimal _ n Hlen). reflexivity.
Qed.

End Pages.

(** The witness of X20: the text is "Page 1 of many". *)
Lemma get_total_pages_defaults_witness :
  pagination.get_total_pages 4300 (Ok (Some (Ok "Page 1 of many"))) = Ok 1%Z.
Proof.
  exact (proj2 (proj2 (proj2 (proj2 (get_total_pages_defaults 4300))))
           "Page 1 of many" " many" eq_refl eq_refl).
Defined.

(** The witness of X21. *)
Lemma get_total_pages_decimal_witness :
  pagination.get_total_pages 4300
    (Ok (Some (Ok ("Page 1 of " ++ Props.decimal 7)))) = Ok 7%Z.
Proof.
  apply (get_total_pages_decimal 4300 7). vm_compute. lia.
Defined.

(** ** [set_cookie_session] *)

Section Cookie.
Import cli Props.

(** X22.  [set_cookie_session] never raises.  With the variable
    LINKEDIN_COOKIE_SESSION unset or empty it returns [False], reports
    a [ValueError] and adds no cookie.  With a value it adds the cookie
    [li_at] holding that value and returns [True], unless [add_cookies]
    raises: then it returns [False], reports that exception, and the
    cookies are as before. *)
Theorem set_cookie_session_outcome (p : process) :
  set_cookie_session p =
    match environ p "LINKEDIN_COOKIE_SESSION", jar_fault p with
    | Some (String c rest), None =>
        (Ok true,
         {| environ := environ p; jar := (jar p ++ [li_at (String c rest)])%list;
            jar_fault := None; reported := reported p |})
    | Some (String c rest), Some e =>
        (Ok false,
         {| environ := environ p; jar := jar p; jar_fault := Some e;
            reported := (reported p ++ [e])%list |})
    | _, fault =>
        (Ok false,
         {| environ := environ p; jar := jar p; jar_fault := fault;
            reported := (reported p ++ [ValueError])%list |})
    end.
Proof.
  unfold set_cookie_session, Eff.try_except_all, Eff.bind, Eff.gets, add_cookies,
    report, Eff.modify, Eff.raise, Eff.ret, li_at.
  cbn [fst snd].
  destruct (environ p "LINKEDIN_COOKIE_SESSION") as [[|c rest]|];
    destruct p as [en j [e|] r]; reflexivity.
Qed.

End Cookie.

(** ** [Scrapper._human_scroll] *)

Section HumanScroll.
Import Scrapper Props.

Lemma scroll_loop_arrives (chunks : list Z) :
  forall (current target : Z) (scrolled : list Z),
    Forall (fun chunk => (20 <= chunk <= 60)%Z) chunks ->
    (target - current <= 20 * Z.of_nat (List.length chunks))%Z ->
    exists more,
      scroll_loop chunks current target scrolled = Arrived (scrolled ++ more) /\
      climbing current target more /\
      last more current = Z.max current target /\
      (target - current <= 60 * Z.of_nat (List.length more))%Z /\
      (20 * Z.of_nat (List.length more) < Z.max 20 (target - current + 20))%Z.
Proof.
  induction chunks as [|chunk later IH]; intros current target scrolled Hr Hen;
    cbn [scroll_loop]; destruct (Z.ltb_spec current target) as [Hlt|Hge].
  - cbn in Hen. lia.
  - exists []. rewrite app_nil_r. cbn. repeat split; lia.
  - inversion Hr as [|? ? Hc Hlater]; subst.
    set (next := Z.min (current + chunk) target).
    assert (Hnext : (current < next <= target)%Z) by (subst next; lia).
    destruct (IH next target (scrolled ++ [next])%list Hlater)
      as (more & Hrun & Hclimb & Hlast & Hup & Hlow).
    { cbn [List.length] in Hen. subst next. lia. }
    exists (next :: more). rewrite Hrun, <- app_assoc. cbn [app].
    split; [reflexivity|]. split; [cbn; auto|]. split; [|split].
    + rewrite last_cons, Hlast. lia.
    + cbn [List.length]. subst next. lia.
    + cbn [List.length]. subst next. lia.
  - exists []. rewrite app_nil_r. cbn. repeat split; lia.
Qed.

(** X23.  [_human_scroll] ends: when every chunk drawn lies between 20
    and 60, the loop is left after at most one turn for every 20 pixels
    of the distance (rounded up).  The positions passed to
    [window.scrollTo] rise strictly, none lies beyond the distance, and
    the last one is the distance itself; their number [n] satisfies
    [distance <= 60 n] and [20 (n - 1) < distance].  For a distance of
    0 or less nothing is scrolled. *)
Theorem human_scroll_arrives (chunks : list Z) (scroll_distance : Z) :
  Forall (fun chunk => (20 <= chunk <= 60)%Z) chunks ->
  (scroll_distance <= 20 * Z.of_nat (List.length chunks))%Z ->
  exists scrolled,
    _human_scroll chunks scroll_distance = Arrived scrolled /\
    climbing 0 scroll_distance scrolled /\
    last scrolled 0%Z = Z.max 0 scroll_distance /\
    (scroll_distance <= 60 * Z.of_nat (List.length scrolled))%Z /\
    (20 * Z.of_nat (List.length scrolled) < Z.max 20 (scroll_distance + 20))%Z /\
    ((scroll_distance <= 0)%Z -> scrolled = []).
Proof.
  intros Hr Hen. unfold _human_scroll.
  destruct (scroll_loop_arrives chunks 0 scroll_distance [] Hr)
    as (more & Hrun & Hclimb & Hlast & Hup & Hlow); [lia|].
  exists more. cbn [app] in Hrun. rewrite Z.sub_0_r in *.
  repeat split; try assumption.
  intros Hle. destruct more as [|p more]; [reflexivity|].
  cbn [List.length] in Hlow. lia.
Qed.

(** The witness of X23: 300 pixels in chunks of 60, 20, 45, ... *)
Lemma human_scroll_arrives_witness :
  exists scrolled,
    _human_scroll [60; 20; 45; 60; 60; 33; 60; 20; 20; 20; 20; 20; 20; 20; 20]%Z 300
      = Arrived scrolled /\
    climbing 0 300 scrolled /\
    last scrolled 0%Z = Z.max 0 300 /\
    (300 <= 60 * Z.of_nat (List.length scrolled))%Z /\
    (20 * Z.of_nat (List.length scrolled) < Z.max 20 (300 + 20))%Z /\
    ((300 <= 0)%Z -> scrolled = []).
Proof.
  apply (human_scroll_arrives
           [60; 20; 45; 60; 60; 33; 60; 20; 20; 20; 20; 20; 20; 20; 20]%Z 300).
  - repeat constructor; lia.
  - cbn. lia.
Defined.

End HumanScroll.

(** ** [Scrapper.get_connections] *)

Section GetConnections.
Import Scrapper Props.

Lemma print_names_outcome (entries : list list_entry) :
  forall printed,
    fst (print_names entries printed) =
      (if forallb complete entries then Ok tt else Raise AttributeError) /\
    (forallb complete entries = true ->
     snd (print_names entries printed) =
       (printed ++ map (fun entry =>
                          match profile_elem entry with
                          | Some (_, inner_text) => strip inner_text
                          | None => EmptyString
                          end) entries)%list).
Proof.
  induction entries as [|entry later IH]; intros printed; cbn [print_names forallb map].
  - rewrite app_nil_r. auto.
  - unfold entry_name, complete.
    destruct (profile_elem entry) as [[href inner]|]; [|cbn; split; [reflexivity|discriminate]].
    destruct (title_elem entry) as [title|]; [|cbn; split; [reflexivity|discriminate]].
    cbn [andb]. destruct (IH (printed ++ [strip inner])%list) as [H1 H2].
    split; [exact H1|]. intros Hall. rewrite (H2 Hall), <- app_assoc. reflexivity.
Qed.

(** X24.  [get_connections] returns the count read from the header only
    when every entry of the list has its profile link and its title
    paragraph; one entry without either makes the call end with
    [AttributeError], whatever the header says.  Without a header
    element the count is 0. *)
Theorem get_connections_needs_complete_entries (int_max_str_digits : nat)
    (header_element : option string) (entries : list list_entry) :
  fst (get_connections int_max_str_digits header_element entries) =
    (if forallb complete entries
     then Count.extract_connection_count int_max_str_digits
            match header_element with
            | Some inner_text => inner_text
            | None => "0 Connections"
            end
     else Raise AttributeError) /\
  Count.extract_connection_count int_max_str_digits "0 Connections" = Ok 0%Z.
Proof.
  split; [|reflexivity].
  unfold get_connections.
  destruct (print_names_outcome entries []) as [H1 _].
  destruct (print_names entries []) as [[u|e] printed]; cbn [fst] in *;
    destruct (forallb complete entries); try discriminate; try reflexivity.
  inversion H1. reflexivity.
Qed.

End GetConnections.
